(** * docker-explorer: the storage abstraction (docker_explorer/lib/storage.py)

  A shallow embedding of [ContainerInfo] and [Storage] and the properties
  of the storage layer: container lookup, layer lineage, container listing
  and the extra-volume mount commands.

  The program is Python 2 (it uses [raw_input] and, through
  [from __future__ import print_function, unicode_literals], the [print]
  function and unicode literals).  Its effects are reads of a directory
  tree, writes to standard output and exceptions; they are modelled by a
  small monad over a read-only file system that logs every file-system
  access and every printed line. *)

From Stdlib Require Import String Ascii List ZArith Bool Arith Lia.
From Stdlib Require Import Sorting.Sorted Sorting.Permutation.
From Stdlib Require Import DecimalString.
Import ListNotations.

Local Open Scope list_scope.
Local Open Scope string_scope.

(** ** Python strings *)

Module Str.

Definition slash : ascii := "/"%char.
Definition colon : ascii := ":"%char.

(** [s.startswith(c)] for a one-character [c]. *)
Definition starts_with_char (c : ascii) (s : string) : bool :=
  match s with
  | String a _ => Ascii.eqb a c
  | EmptyString => false
  end.

(** [s.endswith(c)] for a one-character [c]. *)
Fixpoint ends_with_char (c : ascii) (s : string) : bool :=
  match s with
  | EmptyString => false
  | String a EmptyString => Ascii.eqb a c
  | String _ rest => ends_with_char c rest
  end.

(** [s.lstrip(c)] for a one-character [c]. *)
Fixpoint lstrip_char (c : ascii) (s : string) : string :=
  match s with
  | String a rest => if Ascii.eqb a c then lstrip_char c rest else s
  | EmptyString => EmptyString
  end.

(** [s.split(c)] for a one-character separator: every occurrence of [c]
    separates two components, so the result has one component more than
    [s] has occurrences of [c]. *)
Fixpoint split (c : ascii) (s : string) : list string :=
  match s with
  | EmptyString => [EmptyString]
  | String a rest =>
      if Ascii.eqb a c then EmptyString :: split c rest
      else match split c rest with
           | w :: ws => String a w :: ws
           | [] => [String a EmptyString]
           end
  end.

(** Number of occurrences of [c] in [s] ([s.count(c)]). *)
Fixpoint count (c : ascii) (s : string) : nat :=
  match s with
  | EmptyString => 0
  | String a rest => (if Ascii.eqb a c then 1 else 0) + count c rest
  end.

(** The characters removed by [str.strip()] on a byte string:
    space, tab, newline, carriage return, vertical tab, form feed. *)
Definition is_space (a : ascii) : bool :=
  let n := nat_of_ascii a in
  Nat.eqb n 32 || (Nat.leb 9 n && Nat.leb n 13).

Fixpoint lstrip (s : string) : string :=
  match s with
  | String a rest => if is_space a then lstrip rest else s
  | EmptyString => EmptyString
  end.

Fixpoint rstrip (s : string) : string :=
  match s with
  | EmptyString => EmptyString
  | String a rest =>
      match rstrip rest with
      | EmptyString => if is_space a then EmptyString else String a EmptyString
      | r => String a r
      end
  end.

(** [s.strip()] *)
Definition strip (s : string) : string := rstrip (lstrip s).

(** [sep.join(parts)] *)
Definition join (sep : string) (parts : list string) : string :=
  String.concat sep parts.

Definition is_empty (s : string) : bool :=
  match s with EmptyString => true | _ => false end.

(** ['{0:d}'.format(n)] *)
Definition of_Z (n : Z) : string := NilZero.string_of_int (Z.to_int n).

End Str.

(** ** os.path (posixpath) *)

Module os_path.

(** One step of [posixpath.join]: [path] joined with the component [b]. *)
Definition join2 (path b : string) : string :=
  if Str.starts_with_char Str.slash b then b
  else if Str.is_empty path || Str.ends_with_char Str.slash path then path ++ b
  else path ++ "/" ++ b.

(** [os.path.join(a, p1, ..., pn)] *)
Definition join (a : string) (p : list string) : string :=
  fold_left join2 p a.

Definition isabs (path : string) : bool :=
  Str.starts_with_char Str.slash path.

(** The loop of [posixpath.normpath] over the components; [new_comps] is
    kept reversed (its head is the last component appended). *)
Fixpoint norm_comps (initial_slashes : nat) (comps new_comps : list string)
  : list string :=
  match comps with
  | [] => rev new_comps
  | comp :: rest =>
      if String.eqb comp "" || String.eqb comp "." then
        norm_comps initial_slashes rest new_comps
      else if negb (String.eqb comp "..")
              || (Nat.eqb initial_slashes 0 && match new_comps with [] => true | _ => false end)
              || match new_comps with last :: _ => String.eqb last ".." | [] => false end
      then norm_comps initial_slashes rest (comp :: new_comps)
      else match new_comps with
           | _ :: popped => norm_comps initial_slashes rest popped
           | [] => norm_comps initial_slashes rest new_comps
           end
  end.

(** [os.path.normpath(path)] *)
Definition normpath (path : string) : string :=
  if Str.is_empty path then "."
  else
    let initial_slashes :=
      if Str.starts_with_char Str.slash path then
        if String.prefix "//" path && negb (String.prefix "///" path)
        then 2%nat else 1%nat
      else 0%nat in
    let comps := norm_comps initial_slashes (Str.split Str.slash path) [] in
    let body := Str.join "/" comps in
    let res :=
      match initial_slashes with
      | 0%nat => body
      | 1%nat => "/" ++ body
      | _ => "//" ++ body
      end in
    if Str.is_empty res then "." else res.

(** [os.path.abspath(path)], given the current working directory. *)
Definition abspath (cwd path : string) : string :=
  normpath (if isabs path then path else join cwd [path]).

End os_path.

(** ** Python values

    The values the program handles are the ones [json.load] produces, plus
    [None] and [False] used as defaults: [JNull] is [None], a JSON object is
    a [dict].  A dict is kept as an association list; [items()] iterates in
    the order of that list (the order of a Python 2 dict is fixed for a given
    dict but otherwise unspecified).  Numbers are integers; JSON reals do not
    occur in the fields the program reads. *)

#[warnings="-register-all"]
Inductive json : Type :=
| JNull
| JBool (b : bool)
| JNum (n : Z)
| JStr (s : string)
| JArr (elems : list json)
| JObj (members : list (string * json)).

(** Truth value of a Python object, as tested by [if x:]. *)
Definition truthy (v : json) : bool :=
  match v with
  | JNull => false
  | JBool b => b
  | JNum n => negb (Z.eqb n 0)
  | JStr s => negb (Str.is_empty s)
  | JArr l => match l with [] => false | _ => true end
  | JObj m => match m with [] => false | _ => true end
  end.

Fixpoint assoc {A : Type} (k : string) (m : list (string * A)) : option A :=
  match m with
  | [] => None
  | (k', v) :: rest => if String.eqb k' k then Some v else assoc k rest
  end.

(** ** Exceptions and outcomes *)

Inductive exn : Type :=
| IOError (path : string)            (* open() on a missing path or a directory *)
| OSError (path : string)            (* os.listdir() on a missing path or a file *)
| ValueError (msg : string)
| AttributeError (msg : string)
| KeyError (key : string)
| TypeError (msg : string)
| UnboundLocalError (variable : string)
| SystemExit (code : Z).

(** What running a piece of the program gives: a value, an exception, or
    [OutOfFuel] when the bound given to a [while] loop is exhausted. *)
Inductive outcome (A : Type) : Type :=
| Ret (a : A)
| Raise (e : exn)
| OutOfFuel.
Arguments Ret {A} a.
Arguments Raise {A} e.
Arguments OutOfFuel {A}.

(** ** The file system

    A directory tree without symbolic links, and the working directory of
    the process.  The program only reads it. *)

#[warnings="-register-all"]
Inductive node : Type :=
| File (content : string)
| Dir (entries : list (string * node)).

Record filesystem : Type := {
  fs_root : node;
  fs_cwd : string
}.

(** Path resolution: [stack] holds the node reached and its ancestors, the
    root last. *)
Fixpoint walk_path (stack : list node) (comps : list string) : option (list node) :=
  match comps with
  | [] => Some stack
  | c :: rest =>
      match stack with
      | Dir es :: up =>
          if String.eqb c "" || String.eqb c "." then walk_path stack rest
          else if String.eqb c ".." then
            walk_path (match up with [] => stack | _ => up end) rest
          else match assoc c es with
               | Some n => walk_path (n :: stack) rest
               | None => None
               end
      | _ => None
      end
  end.

Definition resolve (fs : filesystem) (path : string) : option node :=
  if Str.is_empty path then None
  else
    let start :=
      if os_path.isabs path then Some [fs_root fs]
      else walk_path [fs_root fs] (Str.split Str.slash (fs_cwd fs)) in
    match start with
    | Some st =>
        match walk_path st (Str.split Str.slash path) with
        | Some (n :: _) => Some n
        | _ => None
        end
    | None => None
    end.

Definition fs_isfile (fs : filesystem) (path : string) : bool :=
  match resolve fs path with Some (File _) => true | _ => false end.

Definition fs_isdir (fs : filesystem) (path : string) : bool :=
  match resolve fs path with Some (Dir _) => true | _ => false end.

Definition fs_read (fs : filesystem) (path : string) : option string :=
  match resolve fs path with Some (File c) => Some c | _ => None end.

Definition fs_listdir (fs : filesystem) (path : string) : option (list string) :=
  match resolve fs path with Some (Dir es) => Some (map fst es) | _ => None end.

(** ** The monad of the program's effects

    A computation reads the file system and yields an outcome together with
    the events it caused, in order: the file-system accesses and the lines
    printed. *)

Inductive event : Type :=
| EvIsFile (path : string)
| EvIsDir (path : string)
| EvOpen (path : string)
| EvListDir (path : string)
| EvPrint (line : string).

Definition is_file_access (e : event) : bool :=
  match e with EvPrint _ => false | _ => true end.

Definition M (A : Type) : Type := filesystem -> outcome A * list event.

Definition ret {A} (a : A) : M A := fun _ => (Ret a, []).
Definition raise {A} (e : exn) : M A := fun _ => (Raise e, []).
Definition diverge {A} : M A := fun _ => (OutOfFuel, []).

Definition bind {A B} (m : M A) (f : A -> M B) : M B :=
  fun fs =>
    match m fs with
    | (Ret a, l1) => let (r, l2) := f a fs in (r, (l1 ++ l2)%list)
    | (Raise e, l1) => (Raise e, l1)
    | (OutOfFuel, l1) => (OutOfFuel, l1)
    end.

Notation "x <- m ;; k" := (bind m (fun x => k))
  (at level 61, m at next level, right associativity).
Notation "m ;;; k" := (bind m (fun _ => k))
  (at level 61, right associativity).

(** The result of a computation, without its events. *)
Definition result {A} (m : M A) (fs : filesystem) : outcome A := fst (m fs).
Definition events {A} (m : M A) (fs : filesystem) : list event := snd (m fs).

Definition os_path_isfile (path : string) : M bool :=
  fun fs => (Ret (fs_isfile fs path), [EvIsFile path]).

Definition os_path_isdir (path : string) : M bool :=
  fun fs => (Ret (fs_isdir fs path), [EvIsDir path]).

(** [open(path).read()] *)
Definition open_read (path : string) : M string :=
  fun fs =>
    match fs_read fs path with
    | Some c => (Ret c, [EvOpen path])
    | None => (Raise (IOError path), [EvOpen path])
    end.

Definition os_listdir (path : string) : M (list string) :=
  fun fs =>
    match fs_listdir fs path with
    | Some names => (Ret names, [EvListDir path])
    | None => (Raise (OSError path), [EvListDir path])
    end.

Definition print (line : string) : M unit :=
  fun _ => (Ret tt, [EvPrint line]).

(** A list comprehension [[f(x) for x in xs]]. *)
Fixpoint mapM {A B} (f : A -> M B) (xs : list A) : M (list B) :=
  match xs with
  | [] => ret []
  | x :: rest =>
      y <- f x ;;
      ys <- mapM f rest ;;
      ret (y :: ys)
  end.

(** A filtering comprehension [[x for x in xs if p(x)]]. *)
Fixpoint filterM {A} (p : A -> M bool) (xs : list A) : M (list A) :=
  match xs with
  | [] => ret []
  | x :: rest =>
      b <- p x ;;
      ys <- filterM p rest ;;
      ret (if b then x :: ys else ys)
  end.

(** ** Operations on Python values that can raise *)

(** [d.get(key, default)]; only a dict has the method. *)
Definition py_get (d : json) (key : string) (default : json) : M json :=
  match d with
  | JObj m => ret (match assoc key m with Some v => v | None => default end)
  | _ => raise (AttributeError "get")
  end.

(** [d[key]] with a string key. *)
Definition py_getitem (d : json) (key : string) : M json :=
  match d with
  | JObj m => match assoc key m with
              | Some v => ret v
              | None => raise (KeyError key)
              end
  | _ => raise (TypeError "__getitem__")
  end.

(** [d.items()] *)
Definition py_items (d : json) : M (list (string * json)) :=
  match d with
  | JObj m => ret m
  | _ => raise (AttributeError "items")
  end.

(** The receiver of a string method ([split], [lstrip], [startswith]): any
    other value has no such attribute. *)
Definition as_str (method : string) (v : json) : M string :=
  match v with
  | JStr s => ret s
  | _ => raise (AttributeError method)
  end.

Definition unpack_too_few : string := "need more than 1 value to unpack".
Definition unpack_too_many : string := "too many values to unpack".
Definition no_json : string := "No JSON object could be decoded".

(** [a, b = s.split(':')] *)
Definition split_pair (s : string) : M (string * string) :=
  match Str.split Str.colon s with
  | [a; b] => ret (a, b)
  | [] | [_] => raise (ValueError unpack_too_few)
  | _ => raise (ValueError unpack_too_many)
  end.

(** ** ContainerInfo *)

(** The attributes of a [ContainerInfo] object.  Four of them are assigned
    under an [if] in [__init__]: [None] here means that the attribute was
    never assigned (reading it raises [AttributeError]), [Some v] that it
    holds the Python value [v]. *)
Record ContainerInfo : Type := {
  container_id : string;
  config_image_name : option json;
  config_labels : option json;
  creation_timestamp : json;
  image_id : json;
  mount_points : json;
  name : json;
  running : option json;
  start_timestamp : option json;
  volumes : json;
  mount_id : json
}.

Definition set_mount_id (c : ContainerInfo) (v : json) : ContainerInfo :=
  {| container_id := container_id c;
     config_image_name := config_image_name c;
     config_labels := config_labels c;
     creation_timestamp := creation_timestamp c;
     image_id := image_id c;
     mount_points := mount_points c;
     name := name c;
     running := running c;
     start_timestamp := start_timestamp c;
     volumes := volumes c;
     mount_id := v |}.

(** Reading an attribute that may not have been assigned. *)
Definition getattr (attr : string) (v : option json) : M json :=
  match v with
  | Some x => ret x
  | None => raise (AttributeError attr)
  end.

(** ** Storage *)

(** The attributes of a [Storage] object.  [STORAGE_METHOD] is a class
    attribute that the driver subclasses define (['aufs'], ['overlay'], ...);
    the subclasses are not part of this file, so it is taken as given. *)
Record Storage : Type := {
  docker_version : Z;
  storage_name : json;
  root_directory : string;
  docker_directory : string;
  containers_directory : string;
  container_config_filename : string;
  STORAGE_METHOD : string
}.

Definition unsupported_version_message (docker_version : Z) : string :=
  "Unsupported Docker version number " ++ Str.of_Z docker_version.

(** [os.path.abspath], which reads the working directory of the process. *)
Definition os_path_abspath (path : string) : M string :=
  fun fs => (Ret (os_path.abspath (fs_cwd fs) path), []).

(** [Storage.__init__] *)
Definition Storage_init (storage_method docker_directory : string)
  (docker_version : Z) : M Storage :=
  (if negb (Z.eqb docker_version 1 || Z.eqb docker_version 2) then
     print (unsupported_version_message docker_version) ;;;
     raise (SystemExit 1)
   else ret tt) ;;;
  root <- os_path_abspath (os_path.join docker_directory [".."]) ;;
  ret {| docker_version := docker_version;
         storage_name := JNull;
         root_directory := root;
         docker_directory := docker_directory;
         containers_directory := os_path.join docker_directory ["containers"];
         container_config_filename :=
           if Z.eqb docker_version 1 then "config.json" else "config.v2.json";
         STORAGE_METHOD := storage_method |}.

Definition no_container_message : string :=
  "Couldn't find any container configuration file ('{0:s}'). "
  ++ "Make sure the docker repository ({1:s}) is correct. "
  ++ "If it is correct, you might want to run this script"
  ++ " with higher privileges.".

(** One command of [_MakeExtraVolumeCommands]. *)
Definition mount_bind_ro (storage_path volume_mountpoint : string) : string :=
  "mount --bind -o ro " ++ storage_path ++ " " ++ volume_mountpoint.

(** The state of the [while] loop of [GetOrderedLayers] after one run of its
    body: the next [current_layer], or [break]. *)
Inductive loop_step : Type :=
| Continue (current_layer : json)
| Break.

Section Program.

(** [json.loads]: the decoder of the standard library, [None] when the text
    is not a JSON document. *)
Variable json_loads : string -> option json.

(** [<] between two Python 2 values that are not both strings. *)
Variable py_lt_other : json -> json -> bool.

Definition json_load (text : string) : M json :=
  match json_loads text with
  | Some v => ret v
  | None => raise (ValueError no_json)
  end.

(** [a < b] *)
Definition py_lt (a b : json) : bool :=
  match a, b with
  | JStr x, JStr y => String.ltb x y
  | _, _ => py_lt_other a b
  end.

(** [ContainerInfo.__init__] *)
Definition ContainerInfo_init (container_id container_info_json_path : string)
  : M ContainerInfo :=
  text <- open_read container_info_json_path ;;
  container_info_dict <- json_load text ;;
  json_config <- py_get container_info_dict "Config" JNull ;;
  config <- (if truthy json_config then
               image <- py_get json_config "Image" JNull ;;
               labels <- py_get json_config "Labels" JNull ;;
               ret (Some image, Some labels)
             else ret (None, None)) ;;
  created <- py_get container_info_dict "Created" JNull ;;
  image_id <- py_get container_info_dict "Image" JNull ;;
  mount_points <- py_get container_info_dict "MountPoints" JNull ;;
  name <- py_get container_info_dict "Name" (JStr "") ;;
  json_state <- py_get container_info_dict "State" JNull ;;
  state <- (if truthy json_state then
              running <- py_get json_state "Running" (JBool false) ;;
              started <- py_get json_state "StartedAt" (JBool false) ;;
              ret (Some running, Some started)
            else ret (None, None)) ;;
  volumes <- py_get container_info_dict "Volumes" JNull ;;
  ret {| container_id := container_id;
         config_image_name := fst config;
         config_labels := snd config;
         creation_timestamp := created;
         image_id := image_id;
         mount_points := mount_points;
         name := name;
         running := fst state;
         start_timestamp := snd state;
         volumes := volumes;
         mount_id := JNull |}.

(** [Storage.GetContainerInfo].  The local variable [container_info] is
    bound only when the config file exists: [None] is the unbound
    variable. *)
Definition GetContainerInfo (self : Storage) (container_id : string)
  : M ContainerInfo :=
  let container_info_json_path :=
    os_path.join (containers_directory self)
      [container_id; container_config_filename self] in
  is_file <- os_path_isfile container_info_json_path ;;
  container_info <- (if is_file : bool then
                       c <- ContainerInfo_init container_id container_info_json_path ;;
                       ret (Some c)
                     else ret None) ;;
  container_info <-
    (if Z.eqb (docker_version self) 2 then
       let c_path :=
         os_path.join (docker_directory self)
           ["image"; STORAGE_METHOD self; "layerdb"; "mounts"; container_id] in
       mount_id <- open_read (os_path.join c_path ["mount-id"]) ;;
       match container_info with
       | Some c => ret (Some (set_mount_id c (JStr mount_id)))
       | None => raise (UnboundLocalError "container_info")
       end
     else ret container_info) ;;
  match container_info with
  | Some c => ret c
  | None => raise (UnboundLocalError "container_info")
  end.

(** [Storage.GetAllContainersInfo].  [print] is the function here, so
    [print(...).format(...)] prints the template and then looks up [format]
    on [None]. *)
Definition GetAllContainersInfo (self : Storage) : M (list ContainerInfo) :=
  container_ids_list <- os_listdir (containers_directory self) ;;
  (match container_ids_list with
   | [] => print no_container_message ;;; raise (AttributeError "format")
   | _ => ret tt
   end) ;;;
  mapM (GetContainerInfo self) container_ids_list.

(** The body of the [while] loop of [GetOrderedLayers], after the append. *)
Definition layer_step (self : Storage) (current_layer : json) : M loop_step :=
  if Z.eqb (docker_version self) 1 then
    layer <- as_str "startswith" current_layer ;;
    let layer_info_path :=
      os_path.join (docker_directory self) ["graph"; layer; "json"] in
    text <- open_read layer_info_path ;;
    layer_info <- json_load text ;;
    parent <- py_get layer_info "parent" JNull ;;
    ret (Continue parent)
  else if Z.eqb (docker_version self) 2 then
    layer <- as_str "split" current_layer ;;
    parts <- split_pair layer ;;
    let parent_layer_path :=
      os_path.join (docker_directory self)
        ["image"; STORAGE_METHOD self; "imagedb"; "metadata";
         fst parts; snd parts; "parent"] in
    is_file <- os_path_isfile parent_layer_path ;;
    if is_file : bool then
      text <- open_read parent_layer_path ;;
      ret (Continue (JStr (Str.strip text)))
    else ret Break
  else ret (Continue current_layer).

(** The [while current_layer is not None] loop, bounded by [fuel] runs of
    its body. *)
Fixpoint walk_layers (fuel : nat) (self : Storage) (current_layer : json)
  (layer_list : list json) : M (list json) :=
  match current_layer with
  | JNull => ret layer_list
  | _ =>
      match fuel with
      | O => diverge
      | S fuel' =>
          let layer_list := (layer_list ++ [current_layer])%list in
          step <- layer_step self current_layer ;;
          match step with
          | Continue next => walk_layers fuel' self next layer_list
          | Break => ret layer_list
          end
      end
  end.

(** [Storage.GetOrderedLayers] *)
Definition GetOrderedLayers (fuel : nat) (self : Storage) (container_id : string)
  : M (list json) :=
  let layer_path := os_path.join (docker_directory self) ["graph"; container_id] in
  is_dir <- os_path_isdir layer_path ;;
  start <- (if negb is_dir then
              let config_file_path :=
                os_path.join (containers_directory self)
                  [container_id; container_config_filename self] in
              is_file <- os_path_isfile config_file_path ;;
              if negb is_file then ret None
              else
                text <- open_read config_file_path ;;
                json_dict <- json_load text ;;
                image <- py_get json_dict "Image" JNull ;;
                ret (Some image)
            else ret (Some (JStr container_id))) ;;
  match start with
  | None => ret []
  | Some current_layer => walk_layers fuel self current_layer []
  end.

(** [Storage.GetLayerInfo]; [JNull] is the [None] it returns when the file
    is absent. *)
Definition GetLayerInfo (self : Storage) (container_id : json) : M json :=
  layer_info_path <-
    (if Z.eqb (docker_version self) 1 then
       layer <- as_str "startswith" container_id ;;
       ret (Some (os_path.join (docker_directory self) ["graph"; layer; "json"]))
     else if Z.eqb (docker_version self) 2 then
       layer <- as_str "split" container_id ;;
       parts <- split_pair layer ;;
       ret (Some (os_path.join (docker_directory self)
                    ["image"; STORAGE_METHOD self; "imagedb"; "content";
                     fst parts; snd parts]))
     else ret None) ;;
  match layer_info_path with
  | None => raise (UnboundLocalError "layer_info_path")
  | Some path =>
      is_file <- os_path_isfile path ;;
      if is_file : bool then
        text <- open_read path ;;
        json_load text
      else ret JNull
  end.

(** [sorted(xs, key=...)] on the decorated list: a stable sort that compares
    keys with [<]. *)
Fixpoint insert_by_key {A} (x : json * A) (l : list (json * A)) : list (json * A) :=
  match l with
  | [] => [x]
  | y :: rest =>
      if py_lt (fst y) (fst x) then y :: insert_by_key x rest
      else x :: l
  end.

Definition sorted_by_key {A} (keyed : list (json * A)) : list A :=
  map snd (fold_right insert_by_key [] keyed).

(** [Storage.GetContainersList] *)
Definition GetContainersList (self : Storage) (only_running : bool)
  : M (list ContainerInfo) :=
  all <- GetAllContainersInfo self ;;
  keyed <- mapM (fun x => k <- getattr "start_timestamp" (start_timestamp x) ;;
                          ret (k, x)) all ;;
  let containers_info_list := sorted_by_key keyed in
  if only_running then
    filterM (fun x => r <- getattr "running" (running x) ;; ret (truthy r))
      containers_info_list
  else ret containers_info_list.

(** The body of the loop over [MountPoints] in [_MakeExtraVolumeCommands]. *)
Definition mount_point_command (self : Storage) (mount_dir : string)
  (storage_info : json) : M string :=
  src_mount_ihp <- py_getitem storage_info "Source" ;;
  dst_mount_ihp <- py_getitem storage_info "Destination" ;;
  src <- as_str "lstrip" src_mount_ihp ;;
  dst <- as_str "lstrip" dst_mount_ihp ;;
  let src_mount := Str.lstrip_char Str.slash src in
  let dst_mount := Str.lstrip_char Str.slash dst in
  src_mount <- (if Str.is_empty src_mount then
                  volume_name <- py_getitem storage_info "Name" ;;
                  volume_name <- as_str "startswith" volume_name ;;
                  ret (os_path.join "docker" ["volumes"; volume_name; "_data"])
                else ret src_mount) ;;
  let storage_path := os_path.join (root_directory self) [src_mount] in
  let volume_mountpoint := os_path.join mount_dir [dst_mount] in
  ret (mount_bind_ro storage_path volume_mountpoint).

(** The body of the loop over [Volumes]. *)
Definition volume_command (self : Storage) (mount_dir : string)
  (mountpoint : string) (storage : json) : M string :=
  let mountpoint_ihp := Str.lstrip_char Str.slash mountpoint in
  storage <- as_str "lstrip" storage ;;
  let storage_ihp := Str.lstrip_char Str.slash storage in
  let storage_path := os_path.join (root_directory self) [storage_ihp] in
  let volume_mountpoint := os_path.join mount_dir [mountpoint_ihp] in
  ret (mount_bind_ro storage_path volume_mountpoint).

(** [Storage._MakeExtraVolumeCommands] *)
Definition MakeExtraVolumeCommands (self : Storage) (container_info : ContainerInfo)
  (mount_dir : string) : M (list string) :=
  if Z.eqb (docker_version self) 1 then
    let container_volumes := volumes container_info in
    if truthy container_volumes then
      items <- py_items container_volumes ;;
      mapM (fun kv => volume_command self mount_dir (fst kv) (snd kv)) items
    else ret []
  else if Z.eqb (docker_version self) 2 then
    let container_mount_points := mount_points container_info in
    if truthy container_mount_points then
      items <- py_items container_mount_points ;;
      mapM (fun kv => mount_point_command self mount_dir (snd kv)) items
    else ret []
  else ret [].

End Program.

(** ** A JSON decoder and encoder for the examples

    The theorems hold for every decoder.  The concrete scenarios need one:
    [decode] reads the JSON documents that have no escape sequences and no
    reals, which is all the examples use, and [encode] writes them. *)

Module MiniJson.

Definition dquote : ascii := ascii_of_nat 34.
Definition quoted (s : string) : string :=
  String dquote (s ++ String dquote EmptyString).

#[warnings="-register-all"]
Fixpoint encode (j : json) : string :=
  match j with
  | JNull => "null"
  | JBool true => "true"
  | JBool false => "false"
  | JNum n => Str.of_Z n
  | JStr s => quoted s
  | JArr l => "[" ++ Str.join ", " (map encode l) ++ "]"
  | JObj m =>
      "{" ++ Str.join ", " (map (fun kv => quoted (fst kv) ++ ": " ++ encode (snd kv)) m)
      ++ "}"
  end.

Fixpoint skip_ws (s : string) : string :=
  match s with
  | String a rest => if Str.is_space a then skip_ws rest else s
  | EmptyString => EmptyString
  end.

(** The characters of a string literal up to its closing quote. *)
Fixpoint string_body (s : string) : option (string * string) :=
  match s with
  | EmptyString => None
  | String a rest =>
      if Ascii.eqb a dquote then Some (EmptyString, rest)
      else if Ascii.eqb a "\"%char then None
      else match string_body rest with
           | Some (body, rest') => Some (String a body, rest')
           | None => None
           end
  end.

Definition digit_of (a : ascii) : option Z :=
  let n := nat_of_ascii a in
  if Nat.leb 48 n && Nat.leb n 57 then Some (Z.of_nat (n - 48)) else None.

Fixpoint digits (s : string) (acc : Z) : Z * string :=
  match s with
  | String a rest =>
      match digit_of a with
      | Some d => digits rest (10 * acc + d)%Z
      | None => (acc, s)
      end
  | EmptyString => (acc, s)
  end.

Definition number (s : string) : option (Z * string) :=
  match s with
  | String a rest =>
      if Ascii.eqb a "-"%char then
        match rest with
        | String b _ =>
            match digit_of b with
            | Some _ => let (n, r) := digits rest 0%Z in Some (Z.opp n, r)
            | None => None
            end
        | EmptyString => None
        end
      else match digit_of a with
           | Some _ => Some (digits s 0%Z)
           | None => None
           end
  | EmptyString => None
  end.

Definition drop_prefix (p s : string) : option string :=
  if String.prefix p s
  then Some (String.substring (String.length p) (String.length s - String.length p) s)
  else None.

Fixpoint value (fuel : nat) (s : string) : option (json * string) :=
  match fuel with
  | O => None
  | S fuel' =>
      match skip_ws s with
      | EmptyString => None
      | String a rest as s' =>
          if Ascii.eqb a dquote then
            match string_body rest with
            | Some (body, r) => Some (JStr body, r)
            | None => None
            end
          else if Ascii.eqb a "["%char then
            match skip_ws rest with
            | String b r =>
                if Ascii.eqb b "]"%char then Some (JArr [], r)
                else match elements fuel' rest [] with
                     | Some (l, r') => Some (JArr l, r')
                     | None => None
                     end
            | EmptyString => None
            end
          else if Ascii.eqb a "{"%char then
            match skip_ws rest with
            | String b r =>
                if Ascii.eqb b "}"%char then Some (JObj [], r)
                else match members fuel' rest [] with
                     | Some (m, r') => Some (JObj m, r')
                     | None => None
                     end
            | EmptyString => None
            end
          else match drop_prefix "null" s', drop_prefix "true" s', drop_prefix "false" s' with
               | Some r, _, _ => Some (JNull, r)
               | _, Some r, _ => Some (JBool true, r)
               | _, _, Some r => Some (JBool false, r)
               | _, _, _ =>
                   match number s' with
                   | Some (n, r) => Some (JNum n, r)
                   | None => None
                   end
               end
      end
  end
with elements (fuel : nat) (s : string) (acc : list json)
  : option (list json * string) :=
  match fuel with
  | O => None
  | S fuel' =>
      match value fuel' s with
      | Some (v, r) =>
          match skip_ws r with
          | String a r' =>
              if Ascii.eqb a ","%char then elements fuel' r' (v :: acc)
              else if Ascii.eqb a "]"%char then Some (rev (v :: acc), r')
              else None
          | EmptyString => None
          end
      | None => None
      end
  end
with members (fuel : nat) (s : string) (acc : list (string * json))
  : option (list (string * json) * string) :=
  match fuel with
  | O => None
  | S fuel' =>
      match skip_ws s with
      | String a rest =>
          if Ascii.eqb a dquote then
            match string_body rest with
            | Some (key, r) =>
                match skip_ws r with
                | String b r1 =>
                    if Ascii.eqb b ":"%char then
                      match value fuel' r1 with
                      | Some (v, r2) =>
                          match skip_ws r2 with
                          | String c r3 =>
                              if Ascii.eqb c ","%char
                              then members fuel' r3 ((key, v) :: acc)
                              else if Ascii.eqb c "}"%char
                              then Some (rev ((key, v) :: acc), r3)
                              else None
                          | EmptyString => None
                          end
                      | None => None
                      end
                    else None
                | EmptyString => None
                end
            | None => None
            end
          else None
      | EmptyString => None
      end
  end.

Definition decode (s : string) : option json :=
  match value (2 * String.length s + 2) s with
  | Some (v, r) => if Str.is_empty (skip_ws r) then Some v else None
  | None => None
  end.

End MiniJson.

(** Python 2 orders a [bool] before every string; the other mixed
    comparisons play no part in the examples. *)
Definition demo_lt_other (a b : json) : bool :=
  match a, b with
  | JBool _, JStr _ => true
  | _, _ => false
  end.

(** ** The scenarios: a Docker directory at /var/lib/docker *)

(** The file system whose Docker directory /var/lib/docker has the given
    entries. *)
Definition docker_tree (entries : list (string * node)) : filesystem :=
  {| fs_root := Dir [("var", Dir [("lib", Dir [("docker", Dir entries)])])];
     fs_cwd := "/" |}.

(** The object [Storage('/var/lib/docker', version)] of a driver subclass
    whose [STORAGE_METHOD] is ['aufs']. *)
Definition aufs_storage (version : Z) : Storage :=
  {| docker_version := version;
     storage_name := JNull;
     root_directory := "/var/lib";
     docker_directory := "/var/lib/docker";
     containers_directory := "/var/lib/docker/containers";
     container_config_filename :=
       if Z.eqb version 1 then "config.json" else "config.v2.json";
     STORAGE_METHOD := "aufs" |}.

(** A container directory holding a config file with the given document. *)
Definition container_dir (config_filename : string) (config : json) : node :=
  Dir [(config_filename, File (MiniJson.encode config))].

(** No container at all: the containers directory is empty. *)
Definition empty_docker : filesystem := docker_tree [("containers", Dir [])].

(** One generation-1 container whose config is the empty object. *)
Definition bare_container_v1 : filesystem :=
  docker_tree [("containers", Dir [("c1", container_dir "config.json" (JObj []))])].

(** The parent-pointer files of generation 2, under
    image/aufs/imagedb/metadata/sha256/. *)
Definition metadata_tree (layers : list (string * node)) : (string * node) :=
  ("image", Dir [("aufs", Dir [("imagedb", Dir [("metadata", Dir [("sha256", Dir layers)])])])]).

Definition newline : string := String (ascii_of_nat 10) EmptyString.

(** A generation-2 container c1 of image sha256:aaa, whose parent is
    sha256:bbb, which has no parent-pointer file. *)
Definition two_layers : filesystem :=
  docker_tree
    [("containers",
      Dir [("c1", container_dir "config.v2.json" (JObj [("Image", JStr "sha256:aaa")]))]);
     metadata_tree
       [("aaa", Dir [("parent", File ("sha256:bbb" ++ newline))]);
        ("bbb", Dir [])]].

(** The same container, but the parent pointer of sha256:bbb leads back to
    sha256:aaa. *)
Definition cyclic_layers : filesystem :=
  docker_tree
    [("containers",
      Dir [("c1", container_dir "config.v2.json" (JObj [("Image", JStr "sha256:aaa")]))]);
     metadata_tree
       [("aaa", Dir [("parent", File "sha256:bbb")]);
        ("bbb", Dir [("parent", File "sha256:aaa")])]].

(** A generation-1 container c1 of image aaa whose layer directory
    graph/aaa has no json file. *)
Definition missing_layer_json : filesystem :=
  docker_tree
    [("containers",
      Dir [("c1", container_dir "config.json" (JObj [("Image", JStr "aaa")]))]);
     ("graph", Dir [("aaa", Dir [])])].

(** A generation-2 container c1 whose image identifier, ":abc", has an
    empty hash method; there is no image metadata at all. *)
Definition malformed_image : filesystem :=
  docker_tree
    [("containers",
      Dir [("c1", container_dir "config.v2.json" (JObj [("Image", JStr ":abc")]))])].

(** The config document of a running generation-2 container. *)
Definition running_config : json :=
  JObj [("Image", JStr "sha256:aaa");
        ("Name", JStr "/web");
        ("State", JObj [("Running", JBool true);
                        ("StartedAt", JStr "2017-02-13T16:45:05.785658046Z")])].

(** The record [ContainerInfo.__init__] builds from [running_config]. *)
Definition running_record : ContainerInfo :=
  {| container_id := "c1";
     config_image_name := None;
     config_labels := None;
     creation_timestamp := JNull;
     image_id := JStr "sha256:aaa";
     mount_points := JNull;
     name := JStr "/web";
     running := Some (JBool true);
     start_timestamp := Some (JStr "2017-02-13T16:45:05.785658046Z");
     volumes := JNull;
     mount_id := JNull |}.

(** That container without its mount-id file ... *)
Definition without_mount_id : filesystem :=
  docker_tree
    [("containers", Dir [("c1", container_dir "config.v2.json" running_config)])].

(** ... and with it, under image/aufs/layerdb/mounts/c1/. *)
Definition with_mount_id : filesystem :=
  docker_tree
    [("containers", Dir [("c1", container_dir "config.v2.json" running_config)]);
     ("image",
      Dir [("aufs",
            Dir [("layerdb",
                  Dir [("mounts", Dir [("c1", Dir [("mount-id", File "f00d")])])])])])].

(** Three generation-1 containers, listed by the directory in the order
    c1, c2, c3: c2 started first and is stopped, c3 started before c1 and
    both are running. *)
Definition state_config (is_running : bool) (started : string) : json :=
  JObj [("State", JObj [("Running", JBool is_running); ("StartedAt", JStr started)])].

Definition three_containers : filesystem :=
  docker_tree
    [("containers",
      Dir [("c1", container_dir "config.json" (state_config true "2017-03-01T10:00:00Z"));
           ("c2", container_dir "config.json" (state_config false "2017-01-01T10:00:00Z"));
           ("c3", container_dir "config.json" (state_config true "2017-02-01T10:00:00Z"))])].

(** The record [ContainerInfo.__init__] builds from [state_config]. *)
Definition state_record (id : string) (is_running : bool) (started : string)
  : ContainerInfo :=
  {| container_id := id;
     config_image_name := None;
     config_labels := None;
     creation_timestamp := JNull;
     image_id := JNull;
     mount_points := JNull;
     name := JStr "";
     running := Some (JBool is_running);
     start_timestamp := Some (JStr started);
     volumes := JNull;
     mount_id := JNull |}.

(** ** Reading the records of a listing *)

(** The [running] flag of a record, as [if x.running] tests it. *)
Definition is_running (c : ContainerInfo) : bool :=
  match running c with
  | Some r => truthy r
  | None => false
  end.

(** The start timestamp of a record, when it is a string. *)
Definition started_at (c : ContainerInfo) : string :=
  match start_timestamp c with
  | Some (JStr s) => s
  | _ => ""
  end.

(** [a] started no later than [b]: the order of the timestamps as strings. *)
Definition started_before (a b : ContainerInfo) : Prop :=
  String.leb (started_at a) (started_at b) = true.

(** The order of two decorated elements of a sort whose keys are strings. *)
Definition key_le {A} (x y : json * A) : Prop :=
  exists a b, fst x = JStr a /\ fst y = JStr b /\ String.leb a b = true.

Definition str_key {A} (x : json * A) : Prop := exists a, fst x = JStr a.

(** ** Reading the mount points of a container *)

(** The member [field] of a mount point, when it is a string. *)
Definition str_field (field : string) (v : json) : option string :=
  match v with
  | JObj m => match assoc field m with
              | Some (JStr s) => Some s
              | _ => None
              end
  | _ => None
  end.

(** A directory path that is not empty and has no trailing slash. *)
Definition plain_directory (path : string) : Prop :=
  path <> "" /\ Str.ends_with_char Str.slash path = false.

(** A volume name that is one relative path component. *)
Definition plain_name (volume_name : string) : Prop :=
  volume_name <> ""
  /\ Str.starts_with_char Str.slash volume_name = false
  /\ Str.ends_with_char Str.slash volume_name = false.

(** The bind mount m1 of /data/x on /var/x, and the named volume m2, vol1,
    on /srv. *)
Definition bind_mount_m1 : json :=
  JObj [("Source", JStr "/data/x"); ("Destination", JStr "/var/x"); ("Name", JStr "")].

Definition named_volume_m2 : json :=
  JObj [("Source", JStr ""); ("Destination", JStr "/srv"); ("Name", JStr "vol1")].

(** A generation-2 container c1, with its mount-id file, whose config
    declares the given mount points. *)
Definition with_mount_points (mount_points : list (string * json)) : filesystem :=
  docker_tree
    [("containers",
      Dir [("c1", container_dir "config.v2.json"
                    (JObj [("MountPoints", JObj mount_points)]))]);
     ("image",
      Dir [("aufs",
            Dir [("layerdb",
                  Dir [("mounts", Dir [("c1", Dir [("mount-id", File "f00d")])])])])])].

(** The record [GetContainerInfo] returns for that container. *)
Definition mount_points_record (mount_points : list (string * json)) : ContainerInfo :=
  {| container_id := "c1";
     config_image_name := None;
     config_labels := None;
     creation_timestamp := JNull;
     image_id := JNull;
     mount_points := JObj mount_points;
     name := JStr "";
     running := None;
     start_timestamp := None;
     volumes := JNull;
     mount_id := JStr "f00d" |}.

(** From the Docker directory to the mount commands of a container, as a
    caller chains the three calls. *)
Definition extra_volume_commands (json_loads : string -> option json)
  (storage_method docker_directory : string) (docker_version : Z)
  (container_id mount_dir : string) : M (list string) :=
  self <- Storage_init storage_method docker_directory docker_version ;;
  container_info <- GetContainerInfo json_loads self container_id ;;
  MakeExtraVolumeCommands self container_info mount_dir.

(** ** The layer chain as it lies on disk *)

Section Lineage.

Variable json_loads : string -> option json.
Variable self : Storage.
Variable fs : filesystem.

(** What the files say about the parent of a layer: its parent (for
    generation 1 the [parent] member of graph/<id>/json, [None] when there
    is none; for generation 2 the stripped content of the parent-pointer
    file), or [Break] when the parent-pointer file of generation 2 is
    absent. *)
Inductive parent_pointer : json -> loop_step -> Prop :=
| parent_v1 (id text : string) (m : list (string * json)) :
    docker_version self = 1%Z ->
    fs_read fs (os_path.join (docker_directory self) ["graph"; id; "json"])
      = Some text ->
    json_loads text = Some (JObj m) ->
    parent_pointer (JStr id)
      (Continue (match assoc "parent" m with Some v => v | None => JNull end))
| parent_v2_absent (id hash_method layer_id : string) :
    docker_version self = 2%Z ->
    Str.split Str.colon id = [hash_method; layer_id] ->
    fs_isfile fs (os_path.join (docker_directory self)
                    ["image"; STORAGE_METHOD self; "imagedb"; "metadata";
                     hash_method; layer_id; "parent"]) = false ->
    parent_pointer (JStr id) Break
| parent_v2 (id hash_method layer_id text : string) :
    docker_version self = 2%Z ->
    Str.split Str.colon id = [hash_method; layer_id] ->
    fs_read fs (os_path.join (docker_directory self)
                  ["image"; STORAGE_METHOD self; "imagedb"; "metadata";
                   hash_method; layer_id; "parent"]) = Some text ->
    parent_pointer (JStr id) (Continue (JStr (Str.strip text))).

(** A finite chain of layers on disk, from a layer to the one where the
    parent pointers end. *)
Inductive lineage : json -> list json -> Prop :=
| lineage_none : lineage JNull []
| lineage_last (layer : json) :
    parent_pointer layer Break -> lineage layer [layer]
| lineage_parent (layer parent : json) (rest : list json) :
    parent_pointer layer (Continue parent) ->
    lineage parent rest ->
    lineage layer (layer :: rest).

(** The first layer of a container: the container itself when it has a
    directory under graph/, else the [Image] of its config file, and nothing
    ([None]) when there is no config file either. *)
Inductive starting_layer (container_id : string) : json -> Prop :=
| start_graph :
    fs_isdir fs (os_path.join (docker_directory self) ["graph"; container_id])
      = true ->
    starting_layer container_id (JStr container_id)
| start_image (text : string) (m : list (string * json)) :
    fs_isdir fs (os_path.join (docker_directory self) ["graph"; container_id])
      = false ->
    fs_read fs (os_path.join (containers_directory self)
                  [container_id; container_config_filename self]) = Some text ->
    json_loads text = Some (JObj m) ->
    starting_layer container_id
      (match assoc "Image" m with Some v => v | None => JNull end)
| start_nothing :
    fs_isdir fs (os_path.join (docker_directory self) ["graph"; container_id])
      = false ->
    fs_isfile fs (os_path.join (containers_directory self)
                    [container_id; container_config_filename self]) = false ->
    starting_layer container_id JNull.

End Lineage.

(** ** The record of a config document *)

(** [d.get(key, default)] on the members of a dict. *)
Definition dict_get (members : list (string * json)) (key : string) (default : json)
  : json :=
  match assoc key members with
  | Some v => v
  | None => default
  end.

(** An optional block of a config document ([Config], [State]) that
    [__init__] can read: absent or falsy, or an object. *)
Definition readable_block (block : json) : Prop :=
  truthy block = false \/ exists members, block = JObj members.

(** The attribute [__init__] assigns from a member of an optional block;
    it is not assigned when the block is absent or falsy. *)
Definition block_attribute (block : json) (key : string) (default : json)
  : option json :=
  if truthy block then
    match block with
    | JObj members => Some (dict_get members key default)
    | _ => None
    end
  else None.

(** The record of the container [id] whose config document has the given
    members. *)
Definition record_of (id : string) (m : list (string * json)) : ContainerInfo :=
  {| container_id := id;
     config_image_name := block_attribute (dict_get m "Config" JNull) "Image" JNull;
     config_labels := block_attribute (dict_get m "Config" JNull) "Labels" JNull;
     creation_timestamp := dict_get m "Created" JNull;
     image_id := dict_get m "Image" JNull;
     mount_points := dict_get m "MountPoints" JNull;
     name := dict_get m "Name" (JStr EmptyString);
     running := block_attribute (dict_get m "State" JNull) "Running" (JBool false);
     start_timestamp :=
       block_attribute (dict_get m "State" JNull) "StartedAt" (JBool false);
     volumes := dict_get m "Volumes" JNull;
     mount_id := JNull |}.

(** A computation that causes no event on any file system. *)
Definition no_events {A} (m : M A) : Prop := forall fs, events m fs = [].

(** The config file of a container and the mount-id file of generation 2. *)
Definition config_path (self : Storage) (container_id : string) : string :=
  os_path.join (containers_directory self)
    [container_id; container_config_filename self].

Definition mount_id_path (self : Storage) (container_id : string) : string :=
  os_path.join
    (os_path.join (docker_directory self)
       ["image"; STORAGE_METHOD self; "layerdb"; "mounts"; container_id])
    ["mount-id"].

(** A generation-1 container c1 of image aaa, whose parent is bbb, the
    root layer. *)
Definition graph_layers : filesystem :=
  docker_tree
    [("containers",
      Dir [("c1", container_dir "config.json"
                    (JObj [("Image", JStr "aaa");
                           ("State", JObj [("Running", JBool true)]);
                           ("Volumes", JObj [("/data", JStr "/srv/data")])]))]);
     ("graph",
      Dir [("aaa", Dir [("json", File (MiniJson.encode (JObj [("parent", JStr "bbb")])))]);
           ("bbb", Dir [("json", File (MiniJson.encode (JObj [("id", JStr "bbb")])))])])].

(** A generation-1 container c1 whose config file holds a JSON list. *)
Definition list_config : filesystem :=
  docker_tree
    [("containers",
      Dir [("c1", Dir [("config.json", File (MiniJson.encode (JArr [JNum 1; JNum 2])))])])].

(** The json file of a layer of generation 1. *)
Definition layer_json_path (self : Storage) (layer : string) : string :=
  os_path.join (docker_directory self) ["graph"; layer; "json"].

(** A layer identifier as [GetOrderedLayers] returns them: a string, with
    exactly one colon in generation 2. *)
Definition layer_identifier (self : Storage) (layer : json) : Prop :=
  exists s, layer = JStr s
            /\ (docker_version self = 2%Z -> Str.count Str.colon s = 1).

(** The record of the container c1 of [graph_layers], with its one
    volume. *)
Definition graph_container : ContainerInfo :=
  record_of "c1"
    [("Image", JStr "aaa");
     ("State", JObj [("Running", JBool true)]);
     ("Volumes", JObj [("/data", JStr "/srv/data")])].

(** The records started at the time [t]. *)
Definition started_at_time (t : string) (c : ContainerInfo) : bool :=
  String.eqb (started_at c) t.

(** The decorated elements of a sort whose key is the string [t]. *)
Definition has_key {A} (t : string) (x : json * A) : bool :=
  match fst x with
  | JStr k => String.eqb k t
  | _ => false
  end.

(** A computation that does not depend on the bound of a loop. *)
Definition finishes {A} (m : M A) : Prop := forall fs, result m fs <> OutOfFuel.

(** The mount point m3 has no [Destination]. *)
Definition mount_point_without_destination : json :=
  JObj [("Source", JStr "/data/y")].

(** The listing decorated with the sort keys, the start timestamps. *)
Definition decorate (all : list ContainerInfo) : list (json * ContainerInfo) :=
  map (fun c => (JStr (started_at c), c)) all.

(** Three generation-1 containers of which c1 and c2 started at the same
    time, after c3. *)
Definition same_start_containers : filesystem :=
  docker_tree
    [("containers",
      Dir [("c1", container_dir "config.json" (state_config true "2017-03-01T10:00:00Z"));
           ("c2", container_dir "config.json" (state_config true "2017-03-01T10:00:00Z"));
           ("c3", container_dir "config.json" (state_config true "2017-02-01T10:00:00Z"))])].

Definition same_start_listing : list ContainerInfo :=
  [state_record "c1" true "2017-03-01T10:00:00Z";
   state_record "c2" true "2017-03-01T10:00:00Z";
   state_record "c3" true "2017-02-01T10:00:00Z"].

(** A containers directory with the container c1 and a stray file. *)
Definition stray_entry : filesystem :=
  docker_tree
    [("containers",
      Dir [("c1", container_dir "config.json" (state_config true "2017-03-01T10:00:00Z"));
           ("README", File "notes")])].

(** ** The words of the properties *)

(** A value that is true in Python's sense: [True], a number other than
    zero, a string, list or dict that is not empty. *)
Inductive python_true : json -> Prop :=
| true_bool : python_true (JBool true)
| true_number (n : Z) : n <> 0%Z -> python_true (JNum n)
| true_string (s : string) : s <> EmptyString -> python_true (JStr s)
| true_list (l : list json) : l <> [] -> python_true (JArr l)
| true_dict (m : list (string * json)) : m <> [] -> python_true (JObj m).

(** The relative path [rel] placed under the directory [directory], with
    one separator between them unless the directory brings its own (or is
    empty). *)
Definition under (directory rel : string) : string :=
  if Str.is_empty directory || Str.ends_with_char Str.slash directory
  then directory ++ rel
  else directory ++ "/" ++ rel.

(** A mount point the loop of [_MakeExtraVolumeCommands] gets through:
    string [Source] and [Destination], and a string [Name] when the source
    is empty once its leading slashes are removed. *)
Definition loadable_mount_point (v : json) : Prop :=
  exists src dst,
    str_field "Source" v = Some src
    /\ str_field "Destination" v = Some dst
    /\ (Str.lstrip_char Str.slash src = EmptyString ->
        exists volume_name, str_field "Name" v = Some volume_name).

(** The path the loop joins to the root directory for a mount point: its
    [Source] without leading slashes, or the joined data directory of its
    [Name]. *)
Definition source_component (v : json) : string :=
  match str_field "Source" v with
  | Some src =>
      if Str.is_empty (Str.lstrip_char Str.slash src) then
        match str_field "Name" v with
        | Some volume_name => os_path.join "docker" ["volumes"; volume_name; "_data"]
        | None => EmptyString
        end
      else Str.lstrip_char Str.slash src
  | None => EmptyString
  end.

(** A named volume whose [Name] is an absolute path. *)
Definition absolute_name_volume : json :=
  JObj [("Source", JStr EmptyString); ("Destination", JStr "/srv");
        ("Name", JStr "/etc")].

(** The record [GetAllContainersInfo] returns for the one container of
    [bare_container_v1]. *)
Definition bare_record : ContainerInfo :=
  {| container_id := "c1";
     config_image_name := None;
     config_labels := None;
     creation_timestamp := JNull;
     image_id := JNull;
     mount_points := JNull;
     name := JStr EmptyString;
     running := None;
     start_timestamp := None;
     volumes := JNull;
     mount_id := JNull |}.

(** Every [open] in a sequence of events comes right after the
    [os.path.isfile] test of the same path. *)
Fixpoint opens_guarded (evs : list event) : bool :=
  match evs with
  | [] => true
  | EvOpen _ :: _ => false
  | EvIsFile p :: (EvOpen q :: rest) => String.eqb p q && opens_guarded rest
  | _ :: rest => opens_guarded rest
  end.

(** ** Results of computations *)

Lemma result_bind {A B} (m : M A) (f : A -> M B) (fs : filesystem) :
  result (bind m f) fs =
  match result m fs with
  | Ret a => result (f a) fs
  | Raise e => Raise e
  | OutOfFuel => OutOfFuel
  end.
Proof.
  unfold result, bind.
  destruct (m fs) as [[a | e |] l]; simpl; try reflexivity.
  destruct (f a fs); reflexivity.
Qed.

Lemma result_ret {A} (a : A) (fs : filesystem) : result (ret a) fs = Ret a.
Proof. reflexivity. Qed.

Lemma result_raise {A} (e : exn) (fs : filesystem) :
  result (@raise A e) fs = Raise e.
Proof. reflexivity. Qed.

Lemma result_isfile (path : string) (fs : filesystem) :
  result (os_path_isfile path) fs = Ret (fs_isfile fs path).
Proof. reflexivity. Qed.

Lemma result_isdir (path : string) (fs : filesystem) :
  result (os_path_isdir path) fs = Ret (fs_isdir fs path).
Proof. reflexivity. Qed.

Lemma result_open_read (path : string) (fs : filesystem) :
  result (open_read path) fs =
  match fs_read fs path with
  | Some c => Ret c
  | None => Raise (IOError path)
  end.
Proof. unfold result, open_read. destruct (fs_read fs path); reflexivity. Qed.

Lemma fs_read_isfile (fs : filesystem) (path text : string) :
  fs_read fs path = Some text -> fs_isfile fs path = true.
Proof.
  unfold fs_read, fs_isfile.
  destruct (resolve fs path) as [[c | es] |]; congruence.
Qed.

Lemma fs_isfile_read (fs : filesystem) (path : string) :
  fs_isfile fs path = true -> exists text, fs_read fs path = Some text.
Proof.
  unfold fs_read, fs_isfile.
  destruct (resolve fs path) as [[c | es] |]; try discriminate.
  intros _. now exists c.
Qed.

(** Rewriting a result down to the primitives. *)
Ltac step_result :=
  repeat first
    [ rewrite result_bind
    | rewrite result_ret
    | rewrite result_raise
    | rewrite result_isfile
    | rewrite result_isdir
    | rewrite result_open_read ].

Lemma result_mapM {A B} (f : A -> M B) (g : A -> B) (xs : list A)
  (fs : filesystem) :
  (forall x, In x xs -> result (f x) fs = Ret (g x)) ->
  result (mapM f xs) fs = Ret (map g xs).
Proof.
  induction xs as [| x rest IH]; intros Hf; simpl.
  - reflexivity.
  - step_result. rewrite (Hf x (or_introl eq_refl)).
    step_result. rewrite IH by (intros y Hy; apply Hf; now right).
    reflexivity.
Qed.

Lemma result_filterM {A} (p : A -> M bool) (q : A -> bool) (xs : list A)
  (fs : filesystem) :
  (forall x, In x xs -> result (p x) fs = Ret (q x)) ->
  result (filterM p xs) fs = Ret (filter q xs).
Proof.
  induction xs as [| x rest IH]; intros Hp; simpl.
  - reflexivity.
  - step_result. rewrite (Hp x (or_introl eq_refl)).
    step_result. rewrite IH by (intros y Hy; apply Hp; now right).
    now destruct (q x).
Qed.

(** ** The string and path functions on the paths of the scenarios *)

Example join_absolute_component :
  os_path.join "/var/lib/docker" ["graph"; "/abc"; "json"] = "/abc/json".
Proof. reflexivity. Qed.

Example join_empty_component :
  os_path.join "docker" ["volumes"; ""; "_data"] = "docker/volumes/_data".
Proof. reflexivity. Qed.

Example abspath_parent :
  os_path.abspath "/" (os_path.join "/var/lib/docker" [".."]) = "/var/lib".
Proof. reflexivity. Qed.

Example split_colon :
  Str.split Str.colon "sha256:abc" = ["sha256"; "abc"]
  /\ Str.split Str.colon ":abc" = [""; "abc"]
  /\ Str.split Str.colon "a:b:c" = ["a"; "b"; "c"]
  /\ Str.split Str.colon "" = [""].
Proof. repeat split. Qed.

Example decode_encode_running_config :
  MiniJson.decode (MiniJson.encode running_config) = Some running_config.
Proof. reflexivity. Qed.

(** ** Construction *)

(** [Storage('/var/lib/docker', v)] is [aufs_storage v] for the two
    supported versions. *)
Example Storage_init_aufs :
  result (Storage_init "aufs" "/var/lib/docker" 1) empty_docker = Ret (aufs_storage 1)
  /\ result (Storage_init "aufs" "/var/lib/docker" 2) empty_docker = Ret (aufs_storage 2).
Proof. split; reflexivity. Qed.

(** C6: constructing a [Storage] with a version other than 1 and 2 fails at
    once: it prints the "Unsupported Docker version number" line and raises
    [SystemExit(1)], and the only event of the call is that line, so no
    file of the data directory has been accessed. *)
Theorem Storage_init_unsupported_version
  (storage_method docker_directory : string) (docker_version : Z)
  (fs : filesystem) :
  docker_version <> 1%Z -> docker_version <> 2%Z ->
  result (Storage_init storage_method docker_directory docker_version) fs
    = Raise (SystemExit 1)
  /\ events (Storage_init storage_method docker_directory docker_version) fs
    = [EvPrint (unsupported_version_message docker_version)]
  /\ filter is_file_access
       (events (Storage_init storage_method docker_directory docker_version) fs)
     = [].
Proof.
  intros H1 H2.
  apply Z.eqb_neq in H1, H2.
  unfold result, events, Storage_init, bind, print, raise.
  rewrite H1, H2. simpl. repeat split.
Qed.

Lemma Storage_init_unsupported_version_witness :
  result (Storage_init "aufs" "/var/lib/docker" 3) empty_docker = Raise (SystemExit 1)
  /\ events (Storage_init "aufs" "/var/lib/docker" 3) empty_docker
     = [EvPrint (unsupported_version_message 3)]
  /\ filter is_file_access
       (events (Storage_init "aufs" "/var/lib/docker" 3) empty_docker) = [].
Proof.
  apply (Storage_init_unsupported_version "aufs" "/var/lib/docker" 3 empty_docker);
    discriminate.
Defined.

(** ** Listing an empty containers directory *)

Section Catalog.

Variable json_loads : string -> option json.

(** C10: when the containers directory exists and has no entry,
    [GetAllContainersInfo] does not return the empty list: it prints the
    warning template and then raises [AttributeError], because [format] is
    looked up on the [None] that [print] returns. *)
Theorem GetAllContainersInfo_empty_directory (self : Storage) (fs : filesystem) :
  fs_listdir fs (containers_directory self) = Some [] ->
  result (GetAllContainersInfo json_loads self) fs = Raise (AttributeError "format")
  /\ events (GetAllContainersInfo json_loads self) fs
     = [EvListDir (containers_directory self); EvPrint no_container_message].
Proof.
  intros Hdir.
  unfold result, events, GetAllContainersInfo, bind, os_listdir.
  rewrite Hdir. split; reflexivity.
Qed.

(** A container whose config file is absent: the lookup raises, but the
    error never names the config path. *)
Lemma GetContainerInfo_missing_config (self : Storage) (container_id : string)
  (fs : filesystem) :
  fs_isfile fs (os_path.join (containers_directory self)
                  [container_id; container_config_filename self]) = false ->
  result (GetContainerInfo json_loads self container_id) fs
    = Raise (UnboundLocalError "container_info")
  \/ (docker_version self = 2%Z
      /\ result (GetContainerInfo json_loads self container_id) fs
         = Raise (IOError (os_path.join
                             (os_path.join (docker_directory self)
                                ["image"; STORAGE_METHOD self; "layerdb"; "mounts";
                                 container_id])
                             ["mount-id"]))).
Proof.
  intros Hfile. unfold GetContainerInfo.
  step_result. rewrite Hfile. step_result.
  destruct (Z.eqb_spec (docker_version self) 2) as [Hv | Hv].
  - step_result.
    destruct (fs_read fs _) as [text |]; step_result.
    + now left.
    + right. now split.
  - step_result. now left.
Qed.

End Catalog.

Lemma GetAllContainersInfo_empty_directory_witness :
  result (GetAllContainersInfo MiniJson.decode (aufs_storage 2)) empty_docker
    = Raise (AttributeError "format")
  /\ events (GetAllContainersInfo MiniJson.decode (aufs_storage 2)) empty_docker
     = [EvListDir "/var/lib/docker/containers"; EvPrint no_container_message].
Proof.
  apply (GetAllContainersInfo_empty_directory MiniJson.decode (aufs_storage 2)
           empty_docker).
  reflexivity.
Defined.

(** ** Looking up one container *)

(** C2, on the code: asking a generation-1 storage for the container "abc",
    which has no directory under containers/, raises [UnboundLocalError] for
    the local variable [container_info]; it is not a not-found error and
    does not carry the config path /var/lib/docker/containers/abc/config.json. *)
Theorem GetContainerInfo_absent_container_v1 :
  fs_isdir empty_docker "/var/lib/docker/containers/abc" = false
  /\ result (GetContainerInfo MiniJson.decode (aufs_storage 1) "abc") empty_docker
     = Raise (UnboundLocalError "container_info")
  /\ result (GetContainerInfo MiniJson.decode (aufs_storage 1) "abc") empty_docker
     <> Raise (IOError "/var/lib/docker/containers/abc/config.json").
Proof. repeat split. discriminate. Qed.

(** A config document without [State] member: whenever the record is
    built, [running] and [start_timestamp] are not among its attributes. *)
Lemma ContainerInfo_init_without_state (json_loads : string -> option json)
  (container_id path text : string) (m : list (string * json))
  (fs : filesystem) (c : ContainerInfo) :
  fs_read fs path = Some text ->
  json_loads text = Some (JObj m) ->
  assoc "State" m = None ->
  result (ContainerInfo_init json_loads container_id path) fs = Ret c ->
  running c = None /\ start_timestamp c = None.
Proof.
  intros Hread Hload Hstate. unfold ContainerInfo_init.
  step_result. rewrite Hread. cbv beta iota.
  unfold json_load. rewrite Hload. step_result. cbn [py_get]. step_result.
  destruct (result (if truthy _ then _ else _) fs) as [config | e |];
    try discriminate.
  step_result. rewrite Hstate. cbn [truthy]. step_result.
  intros H. injection H as <-. split; reflexivity.
Qed.

(** C5, on the code: a generation-1 container whose config file is the empty
    JSON object loads, but [running], [start_timestamp], [config_labels] and
    [config_image_name] are never assigned, so the record has no
    [running = False] and no empty label set, and listing the containers
    then fails on the missing [start_timestamp]. *)
Theorem GetContainerInfo_bare_config_leaves_attributes_unset :
  exists c,
    result (GetContainerInfo MiniJson.decode (aufs_storage 1) "c1") bare_container_v1
      = Ret c
    /\ running c = None
    /\ start_timestamp c = None
    /\ config_labels c = None
    /\ config_image_name c = None
    /\ result (GetContainersList MiniJson.decode demo_lt_other (aufs_storage 1) true)
         bare_container_v1
       = Raise (AttributeError "start_timestamp").
Proof. eexists. repeat split. Qed.

(** ** The layer chain *)

Section LayerChain.

Variable json_loads : string -> option json.
Variable self : Storage.
Variable fs : filesystem.

Lemma result_json_load (text : string) (v : json) :
  json_loads text = Some v -> result (json_load json_loads text) fs = Ret v.
Proof. intros H. unfold json_load. now rewrite H. Qed.

(** One run of the loop body does what the parent pointer on disk says. *)
Lemma layer_step_parent_pointer (layer : json) (step : loop_step) :
  parent_pointer json_loads self fs layer step ->
  result (layer_step json_loads self layer) fs = Ret step.
Proof.
  intros Hp. unfold layer_step.
  destruct Hp as [id text m Hv Hread Hload
                 | id h l Hv Hsplit Hfile
                 | id h l text Hv Hsplit Hread];
    rewrite Hv; cbn [Z.eqb Pos.eqb]; unfold as_str; step_result.
  - rewrite Hread. step_result.
    rewrite (result_json_load _ _ Hload). reflexivity.
  - unfold split_pair. rewrite Hsplit. step_result.
    cbn [fst snd]. rewrite Hfile. reflexivity.
  - unfold split_pair. rewrite Hsplit. step_result.
    cbn [fst snd]. rewrite (fs_read_isfile _ _ _ Hread). step_result.
    rewrite Hread. reflexivity.
Qed.

Lemma walk_layers_step (fuel : nat) (id : string) (acc : list json) :
  result (walk_layers json_loads (S fuel) self (JStr id) acc) fs =
  match result (layer_step json_loads self (JStr id)) fs with
  | Ret (Continue next) =>
      result (walk_layers json_loads fuel self next (acc ++ [JStr id])%list) fs
  | Ret Break => Ret (acc ++ [JStr id])%list
  | Raise e => Raise e
  | OutOfFuel => OutOfFuel
  end.
Proof.
  simpl. rewrite result_bind.
  destruct (result (layer_step json_loads self (JStr id)) fs) as [[next |] | e |];
    reflexivity.
Qed.

Lemma parent_pointer_str (layer : json) (step : loop_step) :
  parent_pointer json_loads self fs layer step -> exists id, layer = JStr id.
Proof. intros [id ? ? | id ? ? | id ? ? ?]; now exists id. Qed.

Lemma walk_layers_lineage (layer : json) (chain : list json) :
  lineage json_loads self fs layer chain ->
  forall (fuel : nat) (acc : list json),
    length chain <= fuel ->
    result (walk_layers json_loads fuel self layer acc) fs = Ret (acc ++ chain)%list.
Proof.
  induction 1 as [| layer Hlast | layer parent rest Hp Hrest IH];
    intros fuel acc Hfuel.
  - destruct fuel; simpl; now rewrite app_nil_r.
  - destruct (parent_pointer_str _ _ Hlast) as [id ->].
    destruct fuel as [| fuel]; [simpl in Hfuel; lia |].
    rewrite walk_layers_step, (layer_step_parent_pointer _ _ Hlast).
    reflexivity.
  - destruct (parent_pointer_str _ _ Hp) as [id ->].
    destruct fuel as [| fuel]; [simpl in Hfuel; lia |].
    rewrite walk_layers_step, (layer_step_parent_pointer _ _ Hp).
    rewrite IH by (simpl in Hfuel; lia).
    now rewrite <- app_assoc.
Qed.

(** C1, as the code has it: when the parent pointers on disk form a finite
    chain from the container's first layer (ending at a layer without
    parent, which for generation 2 is a layer whose parent-pointer file is
    absent), [GetOrderedLayers] terminates, as soon as the loop is given as
    many runs as the chain has layers, and returns exactly that chain; the
    absent parent-pointer file ends the chain without an error. *)
Theorem GetOrderedLayers_finite_chain (container_id : string) (start : json)
  (chain : list json) :
  starting_layer json_loads self fs container_id start ->
  lineage json_loads self fs start chain ->
  forall fuel : nat,
    length chain <= fuel ->
    result (GetOrderedLayers json_loads fuel self container_id) fs = Ret chain.
Proof.
  intros Hstart Hchain fuel Hfuel.
  unfold GetOrderedLayers. step_result.
  destruct Hstart as [Hdir | text m Hdir Hread Hload | Hdir Hfile];
    rewrite Hdir; cbn [negb]; step_result.
  - now rewrite (walk_layers_lineage _ _ Hchain).
  - rewrite (fs_read_isfile _ _ _ Hread). cbn [negb]. step_result.
    rewrite Hread. step_result. rewrite (result_json_load _ _ Hload).
    unfold py_get. step_result.
    now rewrite (walk_layers_lineage _ _ Hchain).
  - rewrite Hfile. cbn [negb]. step_result.
    inversion Hchain as [| layer Hp | layer parent rest Hp]; subst.
    + reflexivity.
    + destruct (parent_pointer_str _ _ Hp); discriminate.
    + destruct (parent_pointer_str _ _ Hp); discriminate.
Qed.

End LayerChain.

Lemma GetOrderedLayers_finite_chain_witness :
  result (GetOrderedLayers MiniJson.decode 2 (aufs_storage 2) "c1") two_layers
    = Ret [JStr "sha256:aaa"; JStr "sha256:bbb"].
Proof.
  apply (GetOrderedLayers_finite_chain MiniJson.decode (aufs_storage 2) two_layers
           "c1" (JStr "sha256:aaa") [JStr "sha256:aaa"; JStr "sha256:bbb"]).
  - apply (start_image MiniJson.decode (aufs_storage 2) two_layers "c1"
             (MiniJson.encode (JObj [("Image", JStr "sha256:aaa")]))
             [("Image", JStr "sha256:aaa")]); reflexivity.
  - apply lineage_parent with (parent := JStr "sha256:bbb").
    + apply (parent_v2 MiniJson.decode (aufs_storage 2) two_layers
               "sha256:aaa" "sha256" "aaa" ("sha256:bbb" ++ newline));
        reflexivity.
    + apply lineage_last.
      apply (parent_v2_absent MiniJson.decode (aufs_storage 2) two_layers
               "sha256:bbb" "sha256" "bbb"); reflexivity.
  - simpl. lia.
Defined.

(** On the cycle sha256:aaa -> sha256:bbb -> sha256:aaa the loop never
    ends, whatever the number of runs it is given. *)
Lemma walk_layers_cycle (fuel : nat) :
  forall acc : list json,
    result (walk_layers MiniJson.decode fuel (aufs_storage 2) (JStr "sha256:aaa") acc)
      cyclic_layers = OutOfFuel
    /\ result (walk_layers MiniJson.decode fuel (aufs_storage 2) (JStr "sha256:bbb") acc)
         cyclic_layers = OutOfFuel.
Proof.
  induction fuel as [| fuel IH]; intros acc.
  - split; reflexivity.
  - rewrite !walk_layers_step.
    change (result (layer_step MiniJson.decode (aufs_storage 2) (JStr "sha256:aaa"))
              cyclic_layers) with (Ret (Continue (JStr "sha256:bbb"))).
    change (result (layer_step MiniJson.decode (aufs_storage 2) (JStr "sha256:bbb"))
              cyclic_layers) with (Ret (Continue (JStr "sha256:aaa"))).
    split; apply IH.
Qed.

(** C1, counterexample: with a cycle in the parent relation
    [GetOrderedLayers] returns no chain at all, truncated or not. *)
Lemma GetOrderedLayers_cycle_never_returns :
  ~ exists (fuel : nat) (chain : list json),
      result (GetOrderedLayers MiniJson.decode fuel (aufs_storage 2) "c1")
        cyclic_layers = Ret chain.
Proof.
  intros (fuel & chain & H).
  assert (Hrun : result (GetOrderedLayers MiniJson.decode fuel (aufs_storage 2) "c1")
                   cyclic_layers
                 = result (walk_layers MiniJson.decode fuel (aufs_storage 2)
                             (JStr "sha256:aaa") []) cyclic_layers).
  { unfold GetOrderedLayers. step_result. reflexivity. }
  rewrite Hrun in H.
  destruct (walk_layers_cycle fuel []) as [Haaa _].
  rewrite Haaa in H. discriminate.
Qed.

(** In generation 1 a layer whose json file is absent does not end the
    chain: the call raises [IOError]. *)
Example GetOrderedLayers_v1_missing_json :
  forall fuel : nat,
    result (GetOrderedLayers MiniJson.decode (S fuel) (aufs_storage 1) "c1")
      missing_layer_json
    = Raise (IOError "/var/lib/docker/graph/aaa/json").
Proof. intros fuel. reflexivity. Qed.

(** ** Layer identifiers of generation 2 *)

Lemma split_length (c : ascii) (s : string) :
  length (Str.split c s) = S (Str.count c s).
Proof.
  induction s as [| a rest IH]; simpl.
  - reflexivity.
  - destruct (Ascii.eqb a c); simpl.
    + now rewrite IH.
    + destruct (Str.split c rest) as [| w ws]; simpl in *; congruence.
Qed.

Section LayerIdentifier.

Variable json_loads : string -> option json.
Variable fs : filesystem.

(** Unpacking [s.split(':')] into two names succeeds exactly when [s] has
    one colon. *)
Lemma split_pair_one_colon (s : string) :
  Str.count Str.colon s = 1 ->
  exists h l, Str.split Str.colon s = [h; l] /\ result (split_pair s) fs = Ret (h, l).
Proof.
  intros Hcount. unfold split_pair.
  pose proof (split_length Str.colon s) as Hlen. rewrite Hcount in Hlen.
  destruct (Str.split Str.colon s) as [| h [| l [| x rest]]]; try discriminate.
  exists h, l. now split.
Qed.

Lemma split_pair_other (s : string) :
  Str.count Str.colon s <> 1 ->
  exists msg, (msg = unpack_too_few \/ msg = unpack_too_many)
              /\ result (split_pair s) fs = Raise (ValueError msg).
Proof.
  intros Hcount. unfold split_pair.
  pose proof (split_length Str.colon s) as Hlen.
  destruct (Str.split Str.colon s) as [| h [| l [| x rest]]]; simpl in Hlen.
  - discriminate.
  - exists unpack_too_few. split; [now left | reflexivity].
  - exfalso. apply Hcount. congruence.
  - exists unpack_too_many. split; [now right | reflexivity].
Qed.

(** C3, as the code has it: a generation-2 layer identifier is refused
    exactly when it does not hold exactly one ':'.  Then both the layer
    lookup and the chain walk raise [ValueError] from the unpacking (the
    chain is not cut short).  An identifier with one ':' is accepted
    whatever its two components are, empty ones included: the lookup reads
    the content file named by them ([None] when it is absent) and the walk
    reads the parent-pointer file named by them (the chain ends when it is
    absent). *)
Theorem v2_layer_identifier_one_colon (self : Storage) (id : string) :
  docker_version self = 2%Z ->
  (Str.count Str.colon id <> 1 ->
   exists msg,
     (msg = unpack_too_few \/ msg = unpack_too_many)
     /\ result (GetLayerInfo json_loads self (JStr id)) fs = Raise (ValueError msg)
     /\ forall (fuel : nat) (acc : list json),
          result (walk_layers json_loads (S fuel) self (JStr id) acc) fs
            = Raise (ValueError msg))
  /\ (Str.count Str.colon id = 1 ->
      exists hash_method layer_id,
        Str.split Str.colon id = [hash_method; layer_id]
        /\ result (GetLayerInfo json_loads self (JStr id)) fs
           = match fs_read fs (os_path.join (docker_directory self)
                                 ["image"; STORAGE_METHOD self; "imagedb"; "content";
                                  hash_method; layer_id]) with
             | Some text =>
                 match json_loads text with
                 | Some info => Ret info
                 | None => Raise (ValueError no_json)
                 end
             | None => Ret JNull
             end
        /\ result (layer_step json_loads self (JStr id)) fs
           = match fs_read fs (os_path.join (docker_directory self)
                                 ["image"; STORAGE_METHOD self; "imagedb"; "metadata";
                                  hash_method; layer_id; "parent"]) with
             | Some text => Ret (Continue (JStr (Str.strip text)))
             | None => Ret Break
             end).
Proof.
  intros Hv. split; intros Hcount.
  - destruct (split_pair_other id Hcount) as (msg & Hmsg & Hsplit).
    exists msg. split; [exact Hmsg |]. split.
    + unfold GetLayerInfo. rewrite Hv. cbn [Z.eqb Pos.eqb]. unfold as_str.
      step_result. rewrite Hsplit. reflexivity.
    + intros fuel acc. rewrite walk_layers_step.
      unfold layer_step. rewrite Hv. cbn [Z.eqb Pos.eqb]. unfold as_str.
      step_result. rewrite Hsplit. reflexivity.
  - destruct (split_pair_one_colon id Hcount) as (h & l & Hparts & Hsplit).
    exists h, l. split; [exact Hparts |]. split.
    + unfold GetLayerInfo. rewrite Hv. cbn [Z.eqb Pos.eqb]. unfold as_str.
      step_result. rewrite Hsplit. step_result. cbn [fst snd].
      destruct (fs_read fs _) as [text |] eqn:Hread.
      * rewrite (fs_read_isfile _ _ _ Hread). step_result. rewrite Hread.
        unfold json_load. destruct (json_loads text); reflexivity.
      * destruct (fs_isfile fs _) eqn:Hfile; [| reflexivity].
        apply fs_isfile_read in Hfile. destruct Hfile as [text Htext].
        congruence.
    + unfold layer_step. rewrite Hv. cbn [Z.eqb Pos.eqb]. unfold as_str.
      step_result. rewrite Hsplit. step_result. cbn [fst snd].
      destruct (fs_read fs _) as [text |] eqn:Hread.
      * rewrite (fs_read_isfile _ _ _ Hread). step_result. now rewrite Hread.
      * destruct (fs_isfile fs _) eqn:Hfile; [| reflexivity].
        apply fs_isfile_read in Hfile. destruct Hfile as [text Htext].
        congruence.
Qed.

(** C4, as the code has it: for a generation-2 container whose config file
    loads, [GetContainerInfo] returns the record with [mount_id] set to the
    content of the mount-id file when that file is there, and raises
    [IOError] on the path of the mount-id file when it is absent. *)
Theorem GetContainerInfo_v2_mount_id (self : Storage) (container_id : string)
  (c : ContainerInfo) :
  docker_version self = 2%Z ->
  result (ContainerInfo_init json_loads container_id
            (os_path.join (containers_directory self)
               [container_id; container_config_filename self])) fs = Ret c ->
  result (GetContainerInfo json_loads self container_id) fs
  = match fs_read fs (os_path.join
                        (os_path.join (docker_directory self)
                           ["image"; STORAGE_METHOD self; "layerdb"; "mounts";
                            container_id])
                        ["mount-id"]) with
    | Some text => Ret (set_mount_id c (JStr text))
    | None => Raise (IOError (os_path.join
                                (os_path.join (docker_directory self)
                                   ["image"; STORAGE_METHOD self; "layerdb"; "mounts";
                                    container_id])
                                ["mount-id"]))
    end.
Proof.
  intros Hv Hinit.
  assert (Hfile : fs_isfile fs (os_path.join (containers_directory self)
                                  [container_id; container_config_filename self])
                  = true).
  { unfold ContainerInfo_init in Hinit. rewrite result_bind, result_open_read in Hinit.
    destruct (fs_read fs _) as [text |] eqn:Hread; [| discriminate].
    exact (fs_read_isfile _ _ _ Hread). }
  unfold GetContainerInfo. step_result. rewrite Hfile. step_result.
  rewrite Hinit. step_result. rewrite Hv. cbn [Z.eqb Pos.eqb]. step_result.
  destruct (fs_read fs _); reflexivity.
Qed.

End LayerIdentifier.

Lemma v2_layer_identifier_one_colon_witness :
  exists msg,
    (msg = unpack_too_few \/ msg = unpack_too_many)
    /\ result (GetLayerInfo MiniJson.decode (aufs_storage 2) (JStr "sha256:a:b"))
         two_layers = Raise (ValueError msg)
    /\ forall (fuel : nat) (acc : list json),
         result (walk_layers MiniJson.decode (S fuel) (aufs_storage 2)
                   (JStr "sha256:a:b") acc) two_layers
           = Raise (ValueError msg).
Proof.
  apply (v2_layer_identifier_one_colon MiniJson.decode two_layers (aufs_storage 2)
           "sha256:a:b").
  - reflexivity.
  - discriminate.
Defined.

(** C3, counterexample: the identifier ":abc" has an empty first component,
    yet nothing is raised: the layer lookup returns [None] and the chain of
    the container ends, silently, after that one identifier. *)
Lemma v2_empty_component_accepted :
  Str.split Str.colon ":abc" = [""; "abc"]
  /\ result (GetLayerInfo MiniJson.decode (aufs_storage 2) (JStr ":abc"))
       malformed_image = Ret JNull
  /\ result (GetOrderedLayers MiniJson.decode 1 (aufs_storage 2) "c1")
       malformed_image = Ret [JStr ":abc"].
Proof. repeat split. Qed.

Lemma GetContainerInfo_v2_mount_id_witness :
  result (GetContainerInfo MiniJson.decode (aufs_storage 2) "c1") with_mount_id
  = Ret (set_mount_id running_record (JStr "f00d")).
Proof.
  apply (GetContainerInfo_v2_mount_id MiniJson.decode with_mount_id (aufs_storage 2)
           "c1" running_record); reflexivity.
Defined.

(** C4, counterexample: the same container without its mount-id file does
    not load with [mount_id] left unset: the lookup raises [IOError]. *)
Lemma GetContainerInfo_v2_without_mount_id :
  result (GetContainerInfo MiniJson.decode (aufs_storage 2) "c1") without_mount_id
  = Raise (IOError "/var/lib/docker/image/aufs/layerdb/mounts/c1/mount-id").
Proof. reflexivity. Qed.

(** ** Sorting by key *)

Lemma string_compare_trans (a : string) :
  forall b c : string,
    String.compare a b <> Gt -> String.compare b c <> Gt -> String.compare a c <> Gt.
Proof.
  induction a as [| x a IH]; intros [| y b] [| z c]; simpl; try congruence.
  unfold Ascii.compare.
  destruct (N.compare_spec (N_of_ascii x) (N_of_ascii y)) as [Hxy | Hxy | Hxy];
    destruct (N.compare_spec (N_of_ascii y) (N_of_ascii z)) as [Hyz | Hyz | Hyz];
    destruct (N.compare_spec (N_of_ascii x) (N_of_ascii z)) as [Hxz | Hxz | Hxz];
    intros H1 H2; try congruence; try lia.
  now apply IH with b.
Qed.

Lemma string_leb_trans (a b c : string) :
  String.leb a b = true -> String.leb b c = true -> String.leb a c = true.
Proof.
  unfold String.leb. intros Hab Hbc.
  pose proof (string_compare_trans a b c) as Htrans.
  destruct (String.compare a b); destruct (String.compare b c);
    destruct (String.compare a c); try reflexivity; try discriminate;
    exfalso; apply Htrans; congruence.
Qed.

Lemma string_ltb_leb (a b : string) : String.ltb a b = true -> String.leb a b = true.
Proof. unfold String.ltb, String.leb. now destruct (String.compare a b). Qed.

Lemma string_not_ltb_leb (a b : string) :
  String.ltb a b = false -> String.leb b a = true.
Proof.
  unfold String.ltb, String.leb. rewrite (String.compare_antisym b a).
  now destruct (String.compare a b).
Qed.

Lemma Permutation_filter {A} (p : A -> bool) (l l' : list A) :
  Permutation l l' -> Permutation (filter p l) (filter p l').
Proof.
  induction 1 as [| x l l' _ IH | x y l | l l' l'' _ IH1 _ IH2]; simpl.
  - constructor.
  - destruct (p x); [now constructor | exact IH].
  - destruct (p x), (p y); try reflexivity. constructor.
  - now transitivity (filter p l').
Qed.

Lemma StronglySorted_filter {A} (R : A -> A -> Prop) (p : A -> bool) (l : list A) :
  StronglySorted R l -> StronglySorted R (filter p l).
Proof.
  induction 1 as [| x l Hl IH Hx]; simpl.
  - constructor.
  - destruct (p x); [| exact IH].
    constructor; [exact IH |].
    rewrite Forall_forall in *. intros y Hy.
    apply filter_In in Hy. now apply Hx.
Qed.

Section SortedByKey.

Variable py_lt_other : json -> json -> bool.
Variable A : Type.

Lemma insert_by_key_perm (x : json * A) (l : list (json * A)) :
  Permutation (insert_by_key py_lt_other x l) (x :: l).
Proof.
  induction l as [| y rest IH]; simpl.
  - reflexivity.
  - destruct (py_lt py_lt_other (fst y) (fst x)).
    + rewrite IH. apply perm_swap.
    + reflexivity.
Qed.

Lemma fold_insert_perm (l : list (json * A)) :
  Permutation (fold_right (insert_by_key py_lt_other) [] l) l.
Proof.
  induction l as [| x rest IH]; simpl.
  - constructor.
  - rewrite insert_by_key_perm. now constructor.
Qed.

Lemma key_le_trans (x y z : json * A) : key_le x y -> key_le y z -> key_le x z.
Proof.
  intros (a & b & Ha & Hb & Hab) (b' & c & Hb' & Hc & Hbc).
  assert (b' = b) by congruence. subst b'.
  exists a, c. repeat split; trivial. now apply string_leb_trans with b.
Qed.

Lemma insert_by_key_sorted (x : json * A) (l : list (json * A)) :
  str_key x -> Forall str_key l ->
  StronglySorted key_le l ->
  StronglySorted key_le (insert_by_key py_lt_other x l).
Proof.
  intros [a Ha] Hkeys Hsorted.
  induction Hsorted as [| y rest Hrest IH Hy]; simpl.
  - repeat constructor.
  - inversion Hkeys as [| ? ? [b Hb] Hkeys']; subst.
    unfold py_lt. rewrite Hb, Ha.
    destruct (String.ltb b a) eqn:Hlt.
    + constructor; [now apply IH |].
      rewrite Forall_forall. intros z Hz.
      apply (Permutation_in _ (insert_by_key_perm x rest)) in Hz.
      destruct Hz as [<- | Hz].
      * exists b, a. repeat split; trivial. now apply string_ltb_leb.
      * rewrite Forall_forall in Hy. now apply Hy.
    + assert (Hxy : key_le x y).
      { exists a, b. repeat split; trivial. now apply string_not_ltb_leb. }
      constructor; [now constructor |].
      constructor; [exact Hxy |].
      rewrite Forall_forall in *. intros z Hz.
      apply key_le_trans with y; [exact Hxy | now apply Hy].
Qed.

Lemma fold_insert_sorted (l : list (json * A)) :
  Forall str_key l ->
  StronglySorted key_le (fold_right (insert_by_key py_lt_other) [] l).
Proof.
  induction 1 as [| x rest Hx Hrest IH]; simpl.
  - constructor.
  - apply insert_by_key_sorted; trivial.
    rewrite Forall_forall in *. intros y Hy. apply Hrest.
    now apply (Permutation_in _ (fold_insert_perm rest)).
Qed.

End SortedByKey.

(** ** Listing the containers *)

(** Inverting one [bind] of a computation that returned. *)
Ltac bind_inv H :=
  rewrite result_bind in H;
  match type of H with
  | match ?r with _ => _ end = _ => destruct r eqn:?; try discriminate H
  end.

Section Listing.

Variable json_loads : string -> option json.
Variable py_lt_other : json -> json -> bool.
Variable fs : filesystem.

(** [__init__] assigns [running] and [start_timestamp] together. *)
Lemma ContainerInfo_init_state (container_id path : string) (c : ContainerInfo) :
  result (ContainerInfo_init json_loads container_id path) fs = Ret c ->
  start_timestamp c <> None -> running c <> None.
Proof.
  intros H. unfold ContainerInfo_init in H.
  repeat bind_inv H.
  rewrite result_ret in H. injection H as <-. cbn [start_timestamp running].
  match goal with
  | Hs : result (if truthy ?j then _ else _) fs = Ret ?p |- snd ?p <> None -> _ =>
      destruct (truthy j);
      [ repeat bind_inv Hs | ];
      rewrite result_ret in Hs; injection Hs as <-; cbn [fst snd]; congruence
  end.
Qed.

Lemma GetContainerInfo_state (self : Storage) (container_id : string)
  (c : ContainerInfo) :
  result (GetContainerInfo json_loads self container_id) fs = Ret c ->
  start_timestamp c <> None -> running c <> None.
Proof.
  intros H. unfold GetContainerInfo in H.
  bind_inv H. bind_inv H.
  match goal with
  | Hc : result (if ?b then _ else _) fs = Ret ?o |- _ =>
      assert (Hinit : forall c0, o = Some c0 ->
                                 start_timestamp c0 <> None -> running c0 <> None)
  end.
  { intros c0 ->.
    match goal with
    | Hc : result (if ?b then _ else _) fs = Ret _ |- _ =>
        destruct b; [| rewrite result_ret in Hc; discriminate Hc];
        bind_inv Hc; rewrite result_ret in Hc; injection Hc as <-
    end.
    eapply ContainerInfo_init_state; eassumption. }
  bind_inv H.
  match goal with
  | Hm : result (if Z.eqb _ 2 then _ else _) fs = Ret ?o' |- _ =>
      destruct (Z.eqb (docker_version self) 2);
      [ bind_inv Hm | rewrite result_ret in Hm; injection Hm as <- ]
  end.
  - destruct a0 as [c0 |]; [| discriminate].
    match goal with
    | Hm : result (ret _) fs = Ret _ |- _ =>
        rewrite result_ret in Hm; injection Hm as <-
    end.
    rewrite result_ret in H. injection H as <-.
    cbn [set_mount_id start_timestamp running]. now apply Hinit.
  - destruct a0 as [c0 |]; [| discriminate].
    rewrite result_ret in H. injection H as <-. now apply Hinit.
Qed.

Lemma mapM_Forall {A B} (f : A -> M B) (P : B -> Prop) (xs : list A) (ys : list B) :
  (forall x y, result (f x) fs = Ret y -> P y) ->
  result (mapM f xs) fs = Ret ys -> Forall P ys.
Proof.
  intros Hf. revert ys.
  induction xs as [| x rest IH]; intros ys H; simpl in H.
  - rewrite result_ret in H. injection H as <-. constructor.
  - bind_inv H. bind_inv H. rewrite result_ret in H. injection H as <-.
    constructor; [eapply Hf; eassumption | now apply IH].
Qed.

Lemma GetAllContainersInfo_state (self : Storage) (all : list ContainerInfo) :
  result (GetAllContainersInfo json_loads self) fs = Ret all ->
  Forall (fun c => start_timestamp c <> None -> running c <> None) all.
Proof.
  intros H. unfold GetAllContainersInfo in H.
  bind_inv H. bind_inv H.
  revert H. apply mapM_Forall. intros x y. apply GetContainerInfo_state.
Qed.

End Listing.

Section RunningContainers.

Variable json_loads : string -> option json.
Variable py_lt_other : json -> json -> bool.
Variable fs : filesystem.

Lemma truthy_python_true (v : json) : truthy v = true <-> python_true v.
Proof.
  destruct v as [| b | n | s | l | m]; simpl; split; intros H;
    try discriminate H; try (inversion H; fail).
  - subst b. constructor.
  - inversion H. reflexivity.
  - constructor. apply Z.eqb_neq. now destruct (Z.eqb n 0).
  - inversion H as [| ? Hn | | |]; subst. apply Z.eqb_neq in Hn. now rewrite Hn.
  - constructor. now destruct s.
  - inversion H as [| | ? Hs | |]; subst. now destruct s.
  - constructor. now destruct l.
  - inversion H as [| | | ? Hl |]; subst. now destruct l.
  - constructor. now destruct m.
  - inversion H as [| | | | ? Hm]; subst. now destruct m.
Qed.


End RunningContainers.



(** The listing of [three_containers]: c3 before c1, c2 left out. *)
Example GetContainersList_three_containers :
  result (GetContainersList MiniJson.decode demo_lt_other (aufs_storage 1) true)
    three_containers
  = Ret [state_record "c3" true "2017-02-01T10:00:00Z";
         state_record "c1" true "2017-03-01T10:00:00Z"].
Proof. reflexivity. Qed.

(** ** The commands for the declared mount points *)

Lemma append_assoc (a b c : string) : (a ++ b) ++ c = a ++ (b ++ c).
Proof. induction a as [| x a IH]; simpl; [reflexivity | now rewrite IH]. Qed.

Lemma ends_with_char_append (c : ascii) (a b : string) :
  b <> "" -> Str.ends_with_char c (a ++ b) = Str.ends_with_char c b.
Proof.
  intros Hb. induction a as [| x a IH]; simpl.
  - reflexivity.
  - rewrite <- IH. destruct (a ++ b) eqn:Hab; [| reflexivity].
    destruct a; simpl in Hab; [contradiction | discriminate].
Qed.

Lemma lstrip_char_relative (c : ascii) (s : string) :
  Str.starts_with_char c (Str.lstrip_char c s) = false.
Proof.
  induction s as [| a rest IH]; simpl.
  - reflexivity.
  - destruct (Ascii.eqb a c) eqn:Hac; [exact IH | simpl; exact Hac].
Qed.

Lemma is_empty_false (s : string) : s <> "" -> Str.is_empty s = false.
Proof. destruct s; [contradiction | reflexivity]. Qed.

(** Joining a relative component to a plain directory puts one slash
    between them. *)
Lemma join2_plain (path b : string) :
  plain_directory path -> Str.starts_with_char Str.slash b = false ->
  os_path.join2 path b = path ++ "/" ++ b.
Proof.
  intros [Hne Hend] Hb. unfold os_path.join2.
  now rewrite Hb, (is_empty_false _ Hne), Hend.
Qed.

Lemma join_volume_data (volume_name : string) :
  plain_name volume_name ->
  os_path.join "docker" ["volumes"; volume_name; "_data"]
  = "docker/volumes/" ++ volume_name ++ "/_data".
Proof.
  intros (Hne & Hstart & Hend).
  unfold os_path.join. cbn [fold_left].
  change (os_path.join2 "docker" "volumes") with "docker/volumes".
  rewrite (join2_plain "docker/volumes" volume_name);
    [| split; [discriminate | reflexivity] | exact Hstart].
  rewrite join2_plain.
  - now rewrite append_assoc.
  - split; [discriminate |].
    change ("docker/volumes" ++ "/" ++ volume_name)
      with ("docker/volumes/" ++ volume_name).
    now rewrite ends_with_char_append.
  - reflexivity.
Qed.


Lemma Forall2_map_right {A B} (R : A -> B -> Prop) (f : A -> B) (l : list A) :
  (forall x, In x l -> R x (f x)) -> Forall2 R l (map f l).
Proof.
  induction l as [| x rest IH]; intros H; simpl; constructor.
  - apply H. now left.
  - apply IH. intros y Hy. apply H. now right.
Qed.

(** What [__init__] stores for a generation-2 storage. *)
Lemma Storage_init_v2 (storage_method docker_directory : string) (self : Storage)
  (fs : filesystem) :
  result (Storage_init storage_method docker_directory 2) fs = Ret self ->
  docker_version self = 2%Z
  /\ root_directory self
     = os_path.abspath (fs_cwd fs) (os_path.join docker_directory [".."]).
Proof.
  unfold result, Storage_init, bind, os_path_abspath, ret. cbn [Z.eqb Pos.eqb negb orb fst].
  intros H. injection H as <-. split; reflexivity.
Qed.

(** A component without leading slash is placed under the directory. *)
Lemma join2_under (directory b : string) :
  Str.starts_with_char Str.slash b = false ->
  os_path.join2 directory b = under directory b.
Proof. intros Hb. unfold os_path.join2, under. now rewrite Hb. Qed.

(** Under a directory that is not empty and has no trailing slash, the
    path is the directory, a slash and the relative path. *)
Lemma under_plain_directory (directory rel : string) :
  plain_directory directory -> under directory rel = directory ++ "/" ++ rel.
Proof.
  intros [Hne Hend]. unfold under. now rewrite (is_empty_false _ Hne), Hend.
Qed.

Lemma join_single (a b : string) : os_path.join a [b] = os_path.join2 a b.
Proof. reflexivity. Qed.

(** The data directory of a volume whose name does not start with a slash,
    as [os.path.join('docker', 'volumes', name, '_data')] builds it. *)
Lemma join_volume_data_relative (volume_name : string) :
  Str.starts_with_char Str.slash volume_name = false ->
  os_path.join "docker" ["volumes"; volume_name; "_data"]
  = under ("docker/volumes/" ++ volume_name) "_data".
Proof.
  intros Hstart. unfold os_path.join. cbn [fold_left].
  change (os_path.join2 "docker" "volumes") with "docker/volumes".
  rewrite (join2_under "docker/volumes" volume_name Hstart).
  change (under "docker/volumes" volume_name) with ("docker/volumes/" ++ volume_name).
  now apply join2_under.
Qed.

Lemma under_volume_relative (volume_name : string) :
  Str.starts_with_char Str.slash (under ("docker/volumes/" ++ volume_name) "_data")
  = false.
Proof.
  unfold under.
  destruct (Str.is_empty ("docker/volumes/" ++ volume_name)
            || Str.ends_with_char Str.slash ("docker/volumes/" ++ volume_name));
    reflexivity.
Qed.

(** For a name that is one path component the data directory is
    docker/volumes/<name>/_data. *)
Lemma under_volume_plain_name (volume_name : string) :
  plain_name volume_name ->
  under ("docker/volumes/" ++ volume_name) "_data"
  = "docker/volumes/" ++ volume_name ++ "/_data".
Proof.
  intros (Hne & _ & Hend). rewrite under_plain_directory.
  - now rewrite append_assoc.
  - split; [discriminate |]. now rewrite ends_with_char_append.
Qed.

Section LoadableMountPoints.

Variable fs : filesystem.
Variable self : Storage.
Variable mount_dir : string.

(** The command of one mount point the loop gets through. *)
Lemma mount_point_command_loadable (v : json) (src dst : string) :
  str_field "Source" v = Some src ->
  str_field "Destination" v = Some dst ->
  (Str.lstrip_char Str.slash src = EmptyString ->
   exists volume_name, str_field "Name" v = Some volume_name) ->
  result (mount_point_command self mount_dir v) fs
  = Ret ("mount --bind -o ro "
         ++ os_path.join2 (root_directory self) (source_component v)
         ++ " " ++ under mount_dir (Str.lstrip_char Str.slash dst)).
Proof.
  intros Hsrc Hdst Hname.
  unfold source_component. rewrite Hsrc.
  unfold str_field in Hsrc, Hdst.
  destruct v as [| | | | | m]; try discriminate.
  unfold mount_point_command, py_getitem.
  destruct (assoc "Source" m) as [[| | | s | |] |] eqn:Hs; try discriminate.
  destruct (assoc "Destination" m) as [[| | | d | |] |] eqn:Hd; try discriminate.
  injection Hsrc as ->. injection Hdst as ->.
  unfold as_str. step_result.
  destruct (Str.lstrip_char Str.slash src) as [| a rest] eqn:Hstrip.
  - destruct (Hname eq_refl) as (volume_name & Hvol).
    rewrite Hvol. unfold str_field in Hvol.
    destruct (assoc "Name" m) as [[| | | n | |] |] eqn:Hn; try discriminate.
    injection Hvol as ->.
    cbn [Str.is_empty]. step_result.
    rewrite !join_single.
    rewrite (join2_under mount_dir) by apply lstrip_char_relative.
    reflexivity.
  - cbn [Str.is_empty]. step_result.
    rewrite !join_single.
    rewrite (join2_under mount_dir) by apply lstrip_char_relative.
    reflexivity.
Qed.

(** One command per mount point, in the order of the mount points. *)
Lemma MakeExtraVolumeCommands_loadable (container_info : ContainerInfo)
  (mps : list (string * json)) :
  docker_version self = 2%Z ->
  mount_points container_info = JObj mps ->
  Forall (fun kv => loadable_mount_point (snd kv)) mps ->
  result (MakeExtraVolumeCommands self container_info mount_dir) fs
  = Ret (map (fun kv =>
                "mount --bind -o ro "
                ++ os_path.join2 (root_directory self) (source_component (snd kv))
                ++ " "
                ++ under mount_dir
                     (Str.lstrip_char Str.slash
                        (match str_field "Destination" (snd kv) with
                         | Some dst => dst
                         | None => EmptyString
                         end))) mps).
Proof.
  intros Hv Hmps Hload.
  unfold MakeExtraVolumeCommands. rewrite Hv, Hmps. cbn [Z.eqb Pos.eqb].
  destruct mps as [| kv0 rest0]; [reflexivity |].
  cbn [truthy py_items]. step_result.
  apply result_mapM. intros kv Hkv.
  rewrite Forall_forall in Hload.
  destruct (Hload kv Hkv) as (src & dst & Hsrc & Hdst & Hname).
  rewrite Hdst. now apply mount_point_command_loadable with src.
Qed.

End LoadableMountPoints.

Section VolumeCommands.

Variable fs : filesystem.
Variable storage_method docker_directory : string.
Variable self : Storage.
Variable container_info : ContainerInfo.
Variable mount_dir : string.
Variable mps : list (string * json).

Hypothesis self_v2 :
  result (Storage_init storage_method docker_directory 2) fs = Ret self.
Hypothesis declared : mount_points container_info = JObj mps.
Hypothesis loadable : Forall (fun kv => loadable_mount_point (snd kv)) mps.



End VolumeCommands.

(** The container of the scenarios, as [GetContainerInfo] loads it. *)
Example GetContainerInfo_with_mount_points :
  result (GetContainerInfo MiniJson.decode (aufs_storage 2) "c1")
    (with_mount_points [("m1", bind_mount_m1); ("m2", named_volume_m2)])
  = Ret (mount_points_record [("m1", bind_mount_m1); ("m2", named_volume_m2)]).
Proof. reflexivity. Qed.

Lemma scenario_mount_points_loadable :
  Forall (fun kv : string * json => loadable_mount_point (snd kv))
    [("m1", bind_mount_m1); ("m2", named_volume_m2)].
Proof.
  repeat constructor.
  - exists "/data/x", "/var/x". repeat split. discriminate.
  - exists EmptyString, "/srv". repeat split. intros _. now exists "vol1".
Qed.





(** The scenario of the bind mount m1 beside the named volume vol1: the
    two commands, as emitted. *)
Example named_volume_vol1 :
  result (extra_volume_commands MiniJson.decode "aufs" "/var/lib/docker" 2 "c1" "/mnt")
    (with_mount_points [("m1", bind_mount_m1); ("m2", named_volume_m2)])
  = Ret ["mount --bind -o ro /var/lib/data/x /mnt/var/x";
         "mount --bind -o ro /var/lib/docker/volumes/vol1/_data /mnt/srv"].
Proof. reflexivity. Qed.

(** ** Further properties: construction and loading of a container *)

Lemma events_bind {A B} (m : M A) (f : A -> M B) (fs : filesystem) :
  events (bind m f) fs =
  (events m fs ++ match result m fs with
                  | Ret a => events (f a) fs
                  | _ => []
                  end)%list.
Proof.
  unfold events, result, bind.
  destruct (m fs) as [[a | e |] l]; simpl; try now rewrite app_nil_r.
  destruct (f a fs); reflexivity.
Qed.

Lemma no_events_ret {A} (a : A) : no_events (ret a).
Proof. intros fs. reflexivity. Qed.

Lemma no_events_raise {A} (e : exn) : no_events (@raise A e).
Proof. intros fs. reflexivity. Qed.

Lemma no_events_bind {A B} (m : M A) (f : A -> M B) :
  no_events m -> (forall a, no_events (f a)) -> no_events (bind m f).
Proof.
  intros Hm Hf fs. rewrite events_bind, Hm.
  destruct (result m fs); trivial. apply Hf.
Qed.

Lemma no_events_py_get (d : json) (key : string) (default : json) :
  no_events (py_get d key default).
Proof. destruct d; intros fs; reflexivity. Qed.

Lemma no_events_json_load (json_loads : string -> option json) (text : string) :
  no_events (json_load json_loads text).
Proof. unfold json_load. destruct (json_loads text); intros fs; reflexivity. Qed.

(** Closing a goal [no_events m] for a computation built from the
    operations on Python values. *)
Ltac no_events_tac :=
  repeat first
    [ apply no_events_ret
    | apply no_events_raise
    | apply no_events_py_get
    | apply no_events_json_load
    | apply no_events_bind; [| intros ?]
    | match goal with
      | |- no_events (if ?b then _ else _) => destruct b
      | |- no_events (match ?o with Some _ => _ | None => _ end) => destruct o
      end ].

Lemma events_open_read (path : string) (fs : filesystem) :
  events (open_read path) fs = [EvOpen path].
Proof. unfold events, open_read. destruct (fs_read fs path); reflexivity. Qed.

(** X1: constructing a [Storage] for version 1 or 2 succeeds without
    printing and without touching any file; the object holds the containers
    directory [directory/containers], the config file name of the version
    ([config.json] for 1, [config.v2.json] for 2) and, as root directory,
    the normalised parent of [directory], which for an absolute [directory]
    does not depend on the working directory. *)
Theorem Storage_init_supported_version
  (storage_method directory : string) (version : Z) (fs : filesystem) :
  version = 1%Z \/ version = 2%Z ->
  exists self,
    Storage_init storage_method directory version fs = (Ret self, [])
    /\ docker_version self = version
    /\ docker_directory self = directory
    /\ containers_directory self = os_path.join directory ["containers"]
    /\ container_config_filename self
       = (if Z.eqb version 1 then "config.json" else "config.v2.json")
    /\ (os_path.isabs directory = true ->
        root_directory self = os_path.normpath (os_path.join directory [".."])).
Proof.
  intros Hv. eexists. split.
  - unfold Storage_init, bind, os_path_abspath, ret.
    destruct Hv as [-> | ->]; reflexivity.
  - cbn [docker_version docker_directory containers_directory
         container_config_filename root_directory].
    repeat split.
    intros Habs. unfold os_path.abspath.
    assert (Hjoin : os_path.isabs (os_path.join directory [".."]) = true).
    { unfold os_path.join, os_path.join2, os_path.isabs in *. cbn [fold_left].
      change (Str.starts_with_char Str.slash "..") with false. cbv iota.
      destruct directory as [| a rest]; [discriminate |].
      destruct (Str.is_empty (String a rest)
                || Str.ends_with_char Str.slash (String a rest));
        exact Habs. }
    now rewrite Hjoin.
Qed.

Lemma Storage_init_supported_version_witness :
  exists self,
    Storage_init "aufs" "/var/lib/docker" 1 empty_docker = (Ret self, [])
    /\ docker_version self = 1%Z
    /\ docker_directory self = "/var/lib/docker"
    /\ containers_directory self = os_path.join "/var/lib/docker" ["containers"]
    /\ container_config_filename self
       = (if Z.eqb 1 1 then "config.json" else "config.v2.json")
    /\ (os_path.isabs "/var/lib/docker" = true ->
        root_directory self
        = os_path.normpath (os_path.join "/var/lib/docker" [".."])).
Proof.
  apply (Storage_init_supported_version "aufs" "/var/lib/docker" 1 empty_docker).
  left. reflexivity.
Defined.

Section Loading.

Variable json_loads : string -> option json.
Variable fs : filesystem.

(** X2: what [ContainerInfo.__init__] raises on a config file it cannot
    use: [IOError] on the path when the file cannot be opened, [ValueError]
    when its content is not a JSON document, and [AttributeError] (there is
    no [get]) when the document is not an object. *)
Theorem ContainerInfo_init_errors (container_id path : string) :
  (fs_read fs path = None ->
   result (ContainerInfo_init json_loads container_id path) fs
     = Raise (IOError path))
  /\ (forall text,
        fs_read fs path = Some text -> json_loads text = None ->
        result (ContainerInfo_init json_loads container_id path) fs
          = Raise (ValueError no_json))
  /\ (forall text doc,
        fs_read fs path = Some text -> json_loads text = Some doc ->
        (forall m, doc <> JObj m) ->
        result (ContainerInfo_init json_loads container_id path) fs
          = Raise (AttributeError "get")).
Proof.
  unfold ContainerInfo_init. repeat split.
  - intros Hread. step_result. now rewrite Hread.
  - intros text Hread Hload. step_result. rewrite Hread. cbv beta iota.
    unfold json_load. now rewrite Hload.
  - intros text doc Hread Hload Hdoc. step_result. rewrite Hread. cbv beta iota.
    unfold json_load. rewrite Hload. step_result.
    destruct doc as [| b | n | s | l | m]; try reflexivity.
    now destruct (Hdoc m).
Qed.

(** The attributes assigned from an optional block. *)
Lemma block_attributes_result (block : json) (k1 k2 : string) (d1 d2 : json) :
  readable_block block ->
  result (if truthy block then
            a <- py_get block k1 d1 ;;
            b <- py_get block k2 d2 ;;
            ret (Some a, Some b)
          else ret (None, None)) fs
  = Ret (block_attribute block k1 d1, block_attribute block k2 d2).
Proof.
  unfold block_attribute. intros [Hfalse | [members ->]].
  - now rewrite Hfalse.
  - destruct (truthy (JObj members)); reflexivity.
Qed.

(** A config document that is an object with readable [Config] and
    [State] blocks loads, to the record of its members. *)
Lemma ContainerInfo_init_loads (container_id path text : string)
  (m : list (string * json)) :
  fs_read fs path = Some text ->
  json_loads text = Some (JObj m) ->
  readable_block (dict_get m "Config" JNull) ->
  readable_block (dict_get m "State" JNull) ->
  result (ContainerInfo_init json_loads container_id path) fs
  = Ret (record_of container_id m).
Proof.
  intros Hread Hload Hconfig Hstate. unfold ContainerInfo_init.
  step_result. rewrite Hread. cbv beta iota.
  unfold json_load. rewrite Hload. step_result. cbn [py_get]. step_result.
  fold (dict_get m "Config" JNull).
  rewrite (block_attributes_result _ _ _ _ _ Hconfig).
  step_result. fold (dict_get m "State" JNull).
  rewrite (block_attributes_result _ _ _ _ _ Hstate).
  reflexivity.
Qed.

(** X3: a config document that is an object, with a readable [Config]
    block and a [State] block that is a non-empty object, loads; the record
    has [running] and [start_timestamp] assigned from the [Running] and
    [StartedAt] members of the block, each [False] when the member is
    missing, and [name] is the empty string when there is no [Name]. *)
Theorem ContainerInfo_init_state_defaults (container_id path text : string)
  (m state : list (string * json)) :
  fs_read fs path = Some text ->
  json_loads text = Some (JObj m) ->
  readable_block (dict_get m "Config" JNull) ->
  assoc "State" m = Some (JObj state) ->
  state <> [] ->
  exists c,
    result (ContainerInfo_init json_loads container_id path) fs = Ret c
    /\ running c = Some (dict_get state "Running" (JBool false))
    /\ start_timestamp c = Some (dict_get state "StartedAt" (JBool false))
    /\ (assoc "Running" state = None -> is_running c = false)
    /\ (assoc "Name" m = None -> name c = JStr EmptyString).
Proof.
  intros Hread Hload Hconfig Hstate Hne.
  assert (Hblock : dict_get m "State" JNull = JObj state).
  { unfold dict_get. now rewrite Hstate. }
  exists (record_of container_id m). split.
  - apply ContainerInfo_init_loads with text; trivial.
    rewrite Hblock. right. now exists state.
  - unfold is_running. cbn [record_of running start_timestamp name].
    rewrite Hblock. unfold block_attribute.
    destruct state as [| member rest]; [contradiction |].
    cbn [truthy]. repeat split.
    + intros Hrunning. unfold dict_get. now rewrite Hrunning.
    + intros Hname. unfold dict_get. now rewrite Hname.
Qed.

(** Whatever record [__init__] returns carries the identifier it was given
    and no mount identifier. *)
Lemma ContainerInfo_init_id (id path : string) (c : ContainerInfo) :
  result (ContainerInfo_init json_loads id path) fs = Ret c ->
  container_id c = id /\ mount_id c = JNull.
Proof.
  intros H. unfold ContainerInfo_init in H.
  repeat bind_inv H.
  rewrite result_ret in H. injection H as <-. split; reflexivity.
Qed.

(** [__init__] opens the config file and does nothing else to the file
    system. *)
Lemma events_ContainerInfo_init (id path : string) :
  events (ContainerInfo_init json_loads id path) fs = [EvOpen path].
Proof.
  unfold ContainerInfo_init. rewrite events_bind, events_open_read.
  destruct (result (open_read path) fs) as [text | e |]; try reflexivity.
  match goal with
  | |- ([_] ++ events ?m fs)%list = _ =>
      assert (Hpure : no_events m) by no_events_tac; now rewrite Hpure
  end.
Qed.

End Loading.

(** Rewriting the result in a hypothesis down to the primitives. *)
Ltac step_in H :=
  repeat (first [ rewrite result_bind in H
                | rewrite result_ret in H
                | rewrite result_raise in H
                | rewrite result_isfile in H
                | rewrite result_isdir in H
                | rewrite result_open_read in H ];
          cbv beta iota in H).

Section Lookup.

Variable json_loads : string -> option json.
Variable fs : filesystem.
Variable self : Storage.

(** How a lookup that returned came about. *)
Lemma GetContainerInfo_inv (id : string) (c : ContainerInfo) :
  result (GetContainerInfo json_loads self id) fs = Ret c ->
  exists c0,
    result (ContainerInfo_init json_loads id (config_path self id)) fs = Ret c0
    /\ fs_isfile fs (config_path self id) = true
    /\ ((docker_version self = 2%Z
         /\ exists text, fs_read fs (mount_id_path self id) = Some text
                         /\ c = set_mount_id c0 (JStr text))
        \/ (docker_version self <> 2%Z /\ c = c0)).
Proof.
  intros H. unfold GetContainerInfo in H. fold (config_path self id) in H.
  rewrite result_bind, result_isfile in H. cbv beta iota in H.
  destruct (fs_isfile fs (config_path self id)) eqn:Hfile.
  - rewrite result_bind in H. rewrite result_bind in H.
    destruct (result (ContainerInfo_init json_loads id (config_path self id)) fs)
      as [c0 | e |] eqn:Hinit; try discriminate H.
    exists c0. split; [reflexivity |]. split; [reflexivity |].
    rewrite result_ret in H. cbv beta iota in H.
    destruct (Z.eqb_spec (docker_version self) 2) as [Hv | Hv].
    + left. split; [exact Hv |].
      fold (mount_id_path self id) in H.
      step_in H.
      destruct (fs_read fs (mount_id_path self id)) as [text |];
        [| discriminate H].
      step_in H. injection H as <-. now exists text.
    + right. split; [exact Hv |].
      step_in H. now injection H.
  - exfalso. step_in H.
    destruct (Z.eqb (docker_version self) 2).
    + fold (mount_id_path self id) in H. step_in H.
      destruct (fs_read fs (mount_id_path self id)); step_in H; discriminate H.
    + step_in H. discriminate H.
Qed.

(** X4: the record a lookup returns carries the identifier that was asked
    for, and its config file exists; its [mount_id] is the very content of
    the mount-id file (not stripped) in generation 2 and [None] in
    generation 1. *)
Theorem GetContainerInfo_record (id : string) (c : ContainerInfo) :
  result (GetContainerInfo json_loads self id) fs = Ret c ->
  container_id c = id
  /\ fs_isfile fs (config_path self id) = true
  /\ (docker_version self = 2%Z ->
      exists text,
        fs_read fs (mount_id_path self id) = Some text /\ mount_id c = JStr text)
  /\ (docker_version self <> 2%Z -> mount_id c = JNull).
Proof.
  intros H.
  destruct (GetContainerInfo_inv id c H) as (c0 & Hinit & Hfile & Hc).
  destruct (ContainerInfo_init_id _ _ _ _ _ Hinit) as [Hid Hmount].
  destruct Hc as [(Hv & text & Hread & ->) | (Hv & ->)].
  - repeat split; trivial.
    + intros _. now exists text.
    + intros Hv'. contradiction.
  - repeat split; trivial.
    intros Hv'. contradiction.
Qed.

Lemma mapM_inv {A B} (f : A -> M B) (xs : list A) (ys : list B) :
  result (mapM f xs) fs = Ret ys ->
  Forall2 (fun x y => result (f x) fs = Ret y) xs ys.
Proof.
  revert ys. induction xs as [| x rest IH]; intros ys H; simpl in H.
  - rewrite result_ret in H. injection H as <-. constructor.
  - bind_inv H. bind_inv H. rewrite result_ret in H. injection H as <-.
    constructor; [assumption | now apply IH].
Qed.

Lemma result_os_listdir (path : string) :
  result (os_listdir path) fs =
  match fs_listdir fs path with
  | Some names => Ret names
  | None => Raise (OSError path)
  end.
Proof. unfold result, os_listdir. destruct (fs_listdir fs path); reflexivity. Qed.

(** X5: when the listing of all containers returns, the containers
    directory has at least one entry and the listing holds one record per
    entry, in the order of the directory, each with the name of its entry
    as [container_id]. *)
Theorem GetAllContainersInfo_entries (all : list ContainerInfo) :
  result (GetAllContainersInfo json_loads self) fs = Ret all ->
  exists names,
    fs_listdir fs (containers_directory self) = Some names
    /\ names <> []
    /\ map container_id all = names.
Proof.
  intros H. unfold GetAllContainersInfo in H.
  rewrite result_bind, result_os_listdir in H.
  destruct (fs_listdir fs (containers_directory self)) as [names |];
    [| discriminate H].
  exists names. split; [reflexivity |].
  cbv beta iota in H. rewrite result_bind in H.
  destruct names as [| n rest].
  - exfalso. step_in H. discriminate H.
  - split; [discriminate |].
    rewrite result_ret in H. cbv beta iota in H.
    apply mapM_inv in H.
    induction H as [| x c xs cs Hx _ IH]; simpl.
    + reflexivity.
    + f_equal; [| exact IH].
      now destruct (GetContainerInfo_inv x c Hx)
        as (c0 & Hinit & _ & [(_ & text & _ & ->) | (_ & ->)]);
        destruct (ContainerInfo_init_id _ _ _ _ _ Hinit).
Qed.

(** X6: looking up one container touches the file system only at the
    config file of that container and, in generation 2, at its mount-id
    file: nothing is printed, no directory is listed and no file of another
    container is opened. *)
Theorem GetContainerInfo_accesses (id : string) (e : event) :
  In e (events (GetContainerInfo json_loads self id) fs) ->
  e = EvIsFile (config_path self id)
  \/ e = EvOpen (config_path self id)
  \/ (docker_version self = 2%Z /\ e = EvOpen (mount_id_path self id)).
Proof.
  unfold GetContainerInfo. fold (config_path self id) (mount_id_path self id).
  rewrite events_bind. cbn [events os_path_isfile snd app]. rewrite result_isfile.
  intros [<- | He]; [now left |].
  rewrite events_bind in He. apply in_app_or in He. destruct He as [He | He].
  - destruct (fs_isfile fs (config_path self id)).
    + rewrite events_bind, events_ContainerInfo_init in He.
      apply in_app_or in He. destruct He as [[<- | []] | He]; [now right; left |].
      destruct (result (ContainerInfo_init json_loads id (config_path self id)) fs);
        destruct He.
    + destruct He.
  - destruct (result (if fs_isfile fs (config_path self id) then _ else _) fs)
      as [info | |]; try destruct He.
    rewrite events_bind in He. apply in_app_or in He. destruct He as [He | He].
    + destruct (Z.eqb_spec (docker_version self) 2) as [Hv | Hv]; [| destruct He].
      rewrite events_bind, events_open_read in He.
      apply in_app_or in He. destruct He as [[<- | []] | He]; [now right; right |].
      destruct (result (open_read (mount_id_path self id)) fs); try destruct He.
      destruct info; destruct He.
    + destruct (result (if Z.eqb (docker_version self) 2 then _ else _) fs)
        as [[c |] | |]; destruct He.
Qed.

End Lookup.

Lemma GetContainerInfo_record_witness :
  container_id (set_mount_id running_record (JStr "f00d")) = "c1"
  /\ fs_isfile with_mount_id (config_path (aufs_storage 2) "c1") = true
  /\ (docker_version (aufs_storage 2) = 2%Z ->
      exists text,
        fs_read with_mount_id (mount_id_path (aufs_storage 2) "c1") = Some text
        /\ mount_id (set_mount_id running_record (JStr "f00d")) = JStr text)
  /\ (docker_version (aufs_storage 2) <> 2%Z ->
      mount_id (set_mount_id running_record (JStr "f00d")) = JNull).
Proof.
  apply (GetContainerInfo_record MiniJson.decode with_mount_id (aufs_storage 2) "c1").
  reflexivity.
Defined.

Lemma GetAllContainersInfo_entries_witness :
  exists names,
    fs_listdir three_containers (containers_directory (aufs_storage 1)) = Some names
    /\ names <> []
    /\ map container_id
         [state_record "c1" true "2017-03-01T10:00:00Z";
          state_record "c2" false "2017-01-01T10:00:00Z";
          state_record "c3" true "2017-02-01T10:00:00Z"] = names.
Proof.
  apply (GetAllContainersInfo_entries MiniJson.decode three_containers
           (aufs_storage 1)).
  reflexivity.
Defined.

Lemma GetContainerInfo_accesses_witness :
  EvOpen "/var/lib/docker/image/aufs/layerdb/mounts/c1/mount-id"
    = EvIsFile (config_path (aufs_storage 2) "c1")
  \/ EvOpen "/var/lib/docker/image/aufs/layerdb/mounts/c1/mount-id"
     = EvOpen (config_path (aufs_storage 2) "c1")
  \/ (docker_version (aufs_storage 2) = 2%Z
      /\ EvOpen "/var/lib/docker/image/aufs/layerdb/mounts/c1/mount-id"
         = EvOpen (mount_id_path (aufs_storage 2) "c1")).
Proof.
  apply (GetContainerInfo_accesses MiniJson.decode with_mount_id (aufs_storage 2) "c1").
  vm_compute. right. right. left. reflexivity.
Defined.

Lemma ContainerInfo_init_errors_witness :
  result (ContainerInfo_init MiniJson.decode "c1"
            "/var/lib/docker/containers/c1/config.json") list_config
  = Raise (AttributeError "get").
Proof.
  apply (proj2 (proj2 (ContainerInfo_init_errors MiniJson.decode list_config "c1"
                         "/var/lib/docker/containers/c1/config.json")))
    with (text := MiniJson.encode (JArr [JNum 1; JNum 2]))
         (doc := JArr [JNum 1; JNum 2]).
  - reflexivity.
  - reflexivity.
  - discriminate.
Defined.

Lemma ContainerInfo_init_state_defaults_witness :
  exists c,
    result (ContainerInfo_init MiniJson.decode "c1"
              "/var/lib/docker/containers/c1/config.json") graph_layers = Ret c
    /\ running c = Some (dict_get [("Running", JBool true)] "Running" (JBool false))
    /\ start_timestamp c
       = Some (dict_get [("Running", JBool true)] "StartedAt" (JBool false))
    /\ (assoc "Running" [("Running", JBool true)] = None -> is_running c = false)
    /\ (assoc "Name"
          [("Image", JStr "aaa");
           ("State", JObj [("Running", JBool true)]);
           ("Volumes", JObj [("/data", JStr "/srv/data")])] = None ->
        name c = JStr EmptyString).
Proof.
  apply (ContainerInfo_init_state_defaults MiniJson.decode graph_layers "c1"
           "/var/lib/docker/containers/c1/config.json"
           (MiniJson.encode
              (JObj [("Image", JStr "aaa");
                     ("State", JObj [("Running", JBool true)]);
                     ("Volumes", JObj [("/data", JStr "/srv/data")])]))).
  - reflexivity.
  - reflexivity.
  - left. reflexivity.
  - reflexivity.
  - discriminate.
Defined.

(** ** Further properties: layers *)

Section Layers.

Variable json_loads : string -> option json.
Variable fs : filesystem.
Variable self : Storage.

(** The lookup of a layer of generation 1. *)
Lemma GetLayerInfo_v1_result (layer : string) :
  docker_version self = 1%Z ->
  result (GetLayerInfo json_loads self (JStr layer)) fs
  = match fs_read fs (layer_json_path self layer) with
    | Some text =>
        match json_loads text with
        | Some info => Ret info
        | None => Raise (ValueError no_json)
        end
    | None => Ret JNull
    end.
Proof.
  intros Hv. unfold GetLayerInfo. rewrite Hv. cbn [Z.eqb Pos.eqb as_str].
  repeat (step_result; cbv beta iota). fold (layer_json_path self layer).
  destruct (fs_read fs (layer_json_path self layer)) as [text |] eqn:Hread.
  - rewrite (fs_read_isfile _ _ _ Hread). step_result. rewrite Hread.
    unfold json_load. destruct (json_loads text); reflexivity.
  - destruct (fs_isfile fs (layer_json_path self layer)) eqn:Hfile; [| reflexivity].
    apply fs_isfile_read in Hfile. destruct Hfile as [text Htext]. congruence.
Qed.

(** X7: in generation 1 the lookup of a layer reads graph/<layer>/json and
    returns the decoded document, or [None] when the file is absent; the
    chain walk reads the same file without the guard, so on a layer whose
    json file is absent the lookup returns [None] where the walk raises
    [IOError]. *)
Theorem GetLayerInfo_v1_tolerates_absent_layer (layer : string) :
  docker_version self = 1%Z ->
  result (GetLayerInfo json_loads self (JStr layer)) fs
  = match fs_read fs (layer_json_path self layer) with
    | Some text =>
        match json_loads text with
        | Some info => Ret info
        | None => Raise (ValueError no_json)
        end
    | None => Ret JNull
    end
  /\ (fs_read fs (layer_json_path self layer) = None ->
      forall (fuel : nat) (acc : list json),
        result (walk_layers json_loads (S fuel) self (JStr layer) acc) fs
        = Raise (IOError (layer_json_path self layer))).
Proof.
  intros Hv. split; [now apply GetLayerInfo_v1_result |].
  intros Hread fuel acc. rewrite walk_layers_step.
  unfold layer_step, layer_json_path in *. rewrite Hv. cbn [Z.eqb Pos.eqb as_str].
  step_result. now rewrite Hread.
Qed.

(** A run of the loop body that returned read the parent pointer off the
    disk. *)
Lemma layer_step_inv (layer : json) (step : loop_step) :
  docker_version self = 1%Z \/ docker_version self = 2%Z ->
  result (layer_step json_loads self layer) fs = Ret step ->
  parent_pointer json_loads self fs layer step.
Proof.
  intros [Hv | Hv] H; unfold layer_step in H; rewrite Hv in H;
    cbn [Z.eqb Pos.eqb] in H;
    destruct layer as [| b | n | s | l | m]; cbn [as_str] in H; step_in H;
    try discriminate H.
  - destruct (fs_read fs _) as [text |] eqn:Hread; [| discriminate H].
    step_in H. unfold json_load in H.
    destruct (json_loads text) as [doc |] eqn:Hload; step_in H;
      [| discriminate H].
    destruct doc as [| b | n | s' | l | m]; cbn [py_get] in H; step_in H;
      try discriminate H.
    injection H as <-. now apply parent_v1 with text.
  - unfold split_pair in H.
    destruct (Str.split Str.colon s) as [| h [| l [| x r]]] eqn:Hsplit;
      step_in H; try discriminate H.
    cbn [fst snd] in H.
    destruct (fs_isfile fs _) eqn:Hfile; step_in H.
    + destruct (fs_read fs _) as [text |] eqn:Hread; [| discriminate H].
      injection H as <-. now apply parent_v2 with h l.
    + injection H as <-. now apply parent_v2_absent with h l.
Qed.

Lemma walk_layers_sound (fuel : nat) :
  docker_version self = 1%Z \/ docker_version self = 2%Z ->
  forall (layer : json) (acc chain : list json),
    result (walk_layers json_loads fuel self layer acc) fs = Ret chain ->
    exists rest, chain = (acc ++ rest)%list
                 /\ lineage json_loads self fs layer rest.
Proof.
  intros Hv. induction fuel as [| fuel IH]; intros layer acc chain H.
  - destruct layer; simpl in H; try discriminate H.
    injection H as <-. exists []. split; [now rewrite app_nil_r | constructor].
  - assert (Hnull : layer = JNull \/ layer <> JNull)
      by (destruct layer; (now left) || (right; discriminate)).
    destruct Hnull as [-> | Hnn].
    + simpl in H. injection H as <-.
      exists []. split; [now rewrite app_nil_r | constructor].
    + assert (Hstep :
        result (walk_layers json_loads (S fuel) self layer acc) fs
        = match result (layer_step json_loads self layer) fs with
          | Ret (Continue next) =>
              result (walk_layers json_loads fuel self next (acc ++ [layer])%list) fs
          | Ret Break => Ret (acc ++ [layer])%list
          | Raise e => Raise e
          | OutOfFuel => OutOfFuel
          end).
      { destruct layer; try contradiction; simpl; rewrite result_bind;
          destruct (result (layer_step json_loads self _) fs) as [[next |] | e |];
          reflexivity. }
      rewrite Hstep in H.
      destruct (result (layer_step json_loads self layer) fs)
        as [[next |] | e |] eqn:Hls; try discriminate H.
      * apply IH in H. destruct H as (rest & -> & Hrest).
        exists (layer :: rest). split; [now rewrite <- app_assoc |].
        apply lineage_parent with next; [now apply layer_step_inv | exact Hrest].
      * injection H as <-. exists [layer]. split; [reflexivity |].
        apply lineage_last. now apply layer_step_inv.
Qed.

(** Where a returned chain started. *)
Lemma GetOrderedLayers_inv (fuel : nat) (id : string) (chain : list json) :
  result (GetOrderedLayers json_loads fuel self id) fs = Ret chain ->
  exists start,
    starting_layer json_loads self fs id start
    /\ result (walk_layers json_loads fuel self start []) fs = Ret chain.
Proof.
  intros H. unfold GetOrderedLayers in H.
  rewrite result_bind, result_isdir in H. cbv beta iota in H.
  destruct (fs_isdir fs _) eqn:Hdir; cbn [negb] in H.
  - step_in H. exists (JStr id). split; [now apply start_graph | exact H].
  - rewrite result_bind in H. rewrite result_bind, result_isfile in H.
    cbv beta iota in H.
    destruct (fs_isfile fs _) eqn:Hfile; cbn [negb] in H.
    + step_in H.
      destruct (fs_read fs _) as [text |] eqn:Hread; [| discriminate H].
      step_in H. unfold json_load in H.
      destruct (json_loads text) as [doc |] eqn:Hload; step_in H;
        [| discriminate H].
      destruct doc as [| b | n | s | l | m]; cbn [py_get] in H; step_in H;
        try discriminate H.
      exists (match assoc "Image" m with Some v => v | None => JNull end).
      split; [apply start_image with text; assumption | exact H].
    + step_in H. injection H as <-.
      exists JNull. split; [now apply start_nothing |].
      destruct fuel; reflexivity.
Qed.

(** X8: whatever chain [GetOrderedLayers] returns is the chain on disk: it
    starts at the container's first layer (the container itself when it has
    a directory under graph/, else the [Image] of its config), each next
    identifier is the parent the files give for the one before, and the
    last layer has no parent (generation 1) or no parent-pointer file
    (generation 2). *)
Theorem GetOrderedLayers_sound (fuel : nat) (id : string) (chain : list json) :
  docker_version self = 1%Z \/ docker_version self = 2%Z ->
  result (GetOrderedLayers json_loads fuel self id) fs = Ret chain ->
  exists start,
    starting_layer json_loads self fs id start
    /\ lineage json_loads self fs start chain.
Proof.
  intros Hv H.
  destruct (GetOrderedLayers_inv fuel id chain H) as (start & Hstart & Hwalk).
  exists start. split; [exact Hstart |].
  destruct (walk_layers_sound fuel Hv start [] chain Hwalk) as (rest & -> & Hrest).
  exact Hrest.
Qed.

Lemma lineage_parent_pointers (start : json) (chain : list json) :
  lineage json_loads self fs start chain ->
  Forall (fun layer => exists step, parent_pointer json_loads self fs layer step)
    chain.
Proof.
  induction 1 as [| layer Hlast | layer parent rest Hp _ IH].
  - constructor.
  - constructor; [now exists Break | constructor].
  - constructor; [now exists (Continue parent) | exact IH].
Qed.

(** X9: every identifier of a returned chain is a string (never [None]),
    and in generation 2 each has exactly one colon. *)
Theorem GetOrderedLayers_identifiers (fuel : nat) (id : string)
  (chain : list json) :
  docker_version self = 1%Z \/ docker_version self = 2%Z ->
  result (GetOrderedLayers json_loads fuel self id) fs = Ret chain ->
  Forall (layer_identifier self) chain.
Proof.
  intros Hv H.
  destruct (GetOrderedLayers_inv fuel id chain H) as (start & _ & Hwalk).
  destruct (walk_layers_sound fuel Hv start [] chain Hwalk) as (rest & -> & Hrest).
  apply lineage_parent_pointers in Hrest. cbn [app].
  eapply Forall_impl; [| exact Hrest].
  intros layer [step Hp]. unfold layer_identifier.
  destruct Hp as [s text m Hv1 _ _ | s h l Hv2 Hsplit _ | s h l text Hv2 Hsplit _];
    exists s; split; trivial.
  - intros Hv2. congruence.
  - intros _. pose proof (split_length Str.colon s) as Hlen.
    rewrite Hsplit in Hlen. simpl in Hlen. congruence.
  - intros _. pose proof (split_length Str.colon s) as Hlen.
    rewrite Hsplit in Hlen. simpl in Hlen. congruence.
Qed.

(** X10: in generation 1 every layer of a returned chain has a json file
    holding a JSON object, so the lookup of each layer of the chain returns
    that object, never [None]. *)
Theorem GetOrderedLayers_v1_layers_have_info (fuel : nat) (id : string)
  (chain : list json) :
  docker_version self = 1%Z ->
  result (GetOrderedLayers json_loads fuel self id) fs = Ret chain ->
  Forall (fun layer =>
            exists members,
              result (GetLayerInfo json_loads self layer) fs = Ret (JObj members))
    chain.
Proof.
  intros Hv H.
  destruct (GetOrderedLayers_inv fuel id chain H) as (start & _ & Hwalk).
  destruct (walk_layers_sound fuel (or_introl Hv) start [] chain Hwalk)
    as (rest & -> & Hrest).
  apply lineage_parent_pointers in Hrest. cbn [app].
  eapply Forall_impl; [| exact Hrest].
  intros layer [step Hp].
  destruct Hp as [s text m _ Hread Hload | s h l Hv2 _ _ | s h l text Hv2 _ _];
    try congruence.
  exists m. rewrite (GetLayerInfo_v1_result s Hv).
  unfold layer_json_path. now rewrite Hread, Hload.
Qed.

End Layers.

Lemma GetLayerInfo_v1_tolerates_absent_layer_witness :
  result (GetLayerInfo MiniJson.decode (aufs_storage 1) (JStr "zzz")) graph_layers
  = match fs_read graph_layers (layer_json_path (aufs_storage 1) "zzz") with
    | Some text =>
        match MiniJson.decode text with
        | Some info => Ret info
        | None => Raise (ValueError no_json)
        end
    | None => Ret JNull
    end
  /\ (fs_read graph_layers (layer_json_path (aufs_storage 1) "zzz") = None ->
      forall (fuel : nat) (acc : list json),
        result (walk_layers MiniJson.decode (S fuel) (aufs_storage 1) (JStr "zzz") acc)
          graph_layers
        = Raise (IOError (layer_json_path (aufs_storage 1) "zzz"))).
Proof.
  apply (GetLayerInfo_v1_tolerates_absent_layer MiniJson.decode graph_layers
           (aufs_storage 1) "zzz").
  reflexivity.
Defined.

Lemma GetOrderedLayers_sound_witness :
  exists start,
    starting_layer MiniJson.decode (aufs_storage 1) graph_layers "c1" start
    /\ lineage MiniJson.decode (aufs_storage 1) graph_layers start
         [JStr "aaa"; JStr "bbb"].
Proof.
  apply (GetOrderedLayers_sound MiniJson.decode graph_layers (aufs_storage 1) 3 "c1").
  - left. reflexivity.
  - reflexivity.
Defined.

Lemma GetOrderedLayers_identifiers_witness :
  Forall (layer_identifier (aufs_storage 2)) [JStr "sha256:aaa"; JStr "sha256:bbb"].
Proof.
  apply (GetOrderedLayers_identifiers MiniJson.decode two_layers (aufs_storage 2)
           2 "c1").
  - right. reflexivity.
  - reflexivity.
Defined.

Lemma GetOrderedLayers_v1_layers_have_info_witness :
  Forall (fun layer =>
            exists members,
              result (GetLayerInfo MiniJson.decode (aufs_storage 1) layer) graph_layers
              = Ret (JObj members))
    [JStr "aaa"; JStr "bbb"].
Proof.
  apply (GetOrderedLayers_v1_layers_have_info MiniJson.decode graph_layers
           (aufs_storage 1) 3 "c1").
  - reflexivity.
  - reflexivity.
Defined.

Section LayerFiles.

Variable json_loads : string -> option json.
Variable fs : filesystem.
Variable self : Storage.

Lemma walk_layers_unfold (fuel : nat) (layer : json) (acc : list json) :
  layer <> JNull ->
  result (walk_layers json_loads (S fuel) self layer acc) fs
  = match result (layer_step json_loads self layer) fs with
    | Ret (Continue next) =>
        result (walk_layers json_loads fuel self next (acc ++ [layer])%list) fs
    | Ret Break => Ret (acc ++ [layer])%list
    | Raise e => Raise e
    | OutOfFuel => OutOfFuel
    end.
Proof.
  intros Hnn.
  destruct layer; try contradiction; simpl; rewrite result_bind;
    destruct (result (layer_step json_loads self _) fs) as [[next |] | e |];
    reflexivity.
Qed.

Lemma join_absolute_layer (directory layer : string) :
  Str.starts_with_char Str.slash layer = true ->
  Str.ends_with_char Str.slash layer = false ->
  os_path.join directory ["graph"; layer; "json"] = layer ++ "/json".
Proof.
  intros Hstart Hend. unfold os_path.join. cbn [fold_left].
  assert (Hreset : os_path.join2 (os_path.join2 directory "graph") layer = layer).
  { unfold os_path.join2 at 1. now rewrite Hstart. }
  rewrite Hreset. apply join2_plain; [| reflexivity].
  split; [| exact Hend]. intros ->. discriminate Hstart.
Qed.

(** X12: in generation 1 a layer identifier that is an absolute path takes
    the walk out of the Docker directory: for the identifier [layer] the
    one file the loop body opens is [layer/json], whatever the Docker
    directory of the storage is. *)
Theorem layer_step_v1_absolute_identifier (layer : string) :
  docker_version self = 1%Z ->
  Str.starts_with_char Str.slash layer = true ->
  Str.ends_with_char Str.slash layer = false ->
  events (layer_step json_loads self (JStr layer)) fs = [EvOpen (layer ++ "/json")].
Proof.
  intros Hv Hstart Hend. unfold layer_step. rewrite Hv.
  cbn [Z.eqb Pos.eqb as_str].
  rewrite events_bind. cbn [events ret snd app]. rewrite result_ret.
  rewrite (join_absolute_layer _ _ Hstart Hend).
  rewrite events_bind, events_open_read.
  destruct (result (open_read (layer ++ "/json")) fs) as [text | e |];
    try reflexivity.
  match goal with
  | |- ([_] ++ events ?m fs)%list = _ =>
      assert (Hpure : no_events m) by no_events_tac; now rewrite Hpure
  end.
Qed.

End LayerFiles.

Lemma layer_step_v1_absolute_identifier_witness :
  events (layer_step MiniJson.decode (aufs_storage 1) (JStr "/etc")) graph_layers
  = [EvOpen ("/etc" ++ "/json")].
Proof.
  apply (layer_step_v1_absolute_identifier MiniJson.decode graph_layers
           (aufs_storage 1) "/etc"); reflexivity.
Defined.

(** ** Further properties: the sorted listing *)

Lemma string_compare_refl (a : string) : String.compare a a = Eq.
Proof.
  pose proof (String.compare_antisym a a) as H.
  destruct (String.compare a a); simpl in H; congruence.
Qed.

Lemma string_ltb_irrefl (a : string) : String.ltb a a = false.
Proof. unfold String.ltb. now rewrite string_compare_refl. Qed.

Lemma filter_map_snd {A B} (q : B -> bool) (l : list (A * B)) :
  filter q (map snd l) = map snd (filter (fun x => q (snd x)) l).
Proof.
  induction l as [| x rest IH]; simpl; [reflexivity |].
  destruct (q (snd x)); simpl; now rewrite IH.
Qed.

Section StableSort.

Variable py_lt_other : json -> json -> bool.
Variable A : Type.

(** Inserting an element moves it past elements with smaller keys only, so
    among the elements of one key the order is kept. *)
Lemma insert_by_key_stable (t : string) (x : json * A) (l : list (json * A)) :
  str_key x -> Forall str_key l ->
  filter (has_key t) (insert_by_key py_lt_other x l) = filter (has_key t) (x :: l).
Proof.
  intros [a Ha] Hkeys.
  induction Hkeys as [| y rest [b Hb] _ IH]; [reflexivity |].
  cbn [insert_by_key]. unfold py_lt. rewrite Hb, Ha.
  destruct (String.ltb b a) eqn:Hlt; [| reflexivity].
  cbn [filter] in *. rewrite IH.
  destruct (has_key t y) eqn:Hy, (has_key t x) eqn:Hx; try reflexivity.
  unfold has_key in Hy, Hx. rewrite Hb in Hy. rewrite Ha in Hx.
  apply String.eqb_eq in Hy, Hx. subst a b.
  now rewrite string_ltb_irrefl in Hlt.
Qed.

Lemma fold_insert_stable (t : string) (l : list (json * A)) :
  Forall str_key l ->
  filter (has_key t) (fold_right (insert_by_key py_lt_other) [] l)
  = filter (has_key t) l.
Proof.
  induction 1 as [| x rest Hx Hrest IH]; [reflexivity |].
  cbn [fold_right]. rewrite insert_by_key_stable; trivial.
  - cbn [filter]. now rewrite IH.
  - rewrite Forall_forall in *. intros y Hy. apply Hrest.
    now apply (Permutation_in _ (fold_insert_perm py_lt_other A rest)).
Qed.

End StableSort.

Section SortedListing.

Variable json_loads : string -> option json.
Variable py_lt_other : json -> json -> bool.
Variable fs : filesystem.
Variable self : Storage.
Variable all : list ContainerInfo.

Hypothesis listed : result (GetAllContainersInfo json_loads self) fs = Ret all.
Hypothesis string_timestamps :
  forall c, In c all -> exists s, start_timestamp c = Some (JStr s).

Lemma keyed_str_keys : Forall str_key (decorate all).
Proof.
  unfold decorate. rewrite Forall_forall. intros x Hx.
  apply in_map_iff in Hx. destruct Hx as (c & <- & _). now exists (started_at c).
Qed.

Lemma sorted_keyed_perm : Permutation (sorted_by_key py_lt_other (decorate all)) all.
Proof.
  unfold sorted_by_key.
  rewrite (fold_insert_perm py_lt_other ContainerInfo (decorate all)).
  unfold decorate. rewrite map_map. cbn [snd]. now rewrite map_id.
Qed.

(** What [GetContainersList] returns, for both values of [only_running]. *)
Lemma GetContainersList_result (only_running : bool) :
  result (GetContainersList json_loads py_lt_other self only_running) fs
  = Ret (if only_running
         then filter is_running (sorted_by_key py_lt_other (decorate all))
         else sorted_by_key py_lt_other (decorate all)).
Proof.
  pose proof (GetAllContainersInfo_state json_loads fs self all listed) as Hstate.
  rewrite Forall_forall in Hstate.
  unfold GetContainersList. step_result. rewrite listed.
  cbv beta iota. step_result.
  rewrite (result_mapM _ (fun c => (JStr (started_at c), c))).
  - fold (decorate all). destruct only_running; [| reflexivity].
    apply result_filterM. intros c Hc.
    apply (Permutation_in _ sorted_keyed_perm) in Hc.
    destruct (string_timestamps c Hc) as [s Hs].
    assert (Hrun : running c <> None) by (apply Hstate; [exact Hc | congruence]).
    unfold is_running. destruct (running c) as [r |]; [| congruence].
    reflexivity.
  - intros c Hc. destruct (string_timestamps c Hc) as [s Hs].
    unfold started_at. rewrite Hs. reflexivity.
Qed.

Lemma sorted_keyed_decorated :
  Forall (fun x => fst x = JStr (started_at (snd x)))
    (fold_right (insert_by_key py_lt_other) [] (decorate all)).
Proof.
  rewrite Forall_forall. intros x Hx.
  apply (Permutation_in _ (fold_insert_perm py_lt_other ContainerInfo (decorate all))) in Hx.
  unfold decorate in Hx. apply in_map_iff in Hx. now destruct Hx as (c & <- & _).
Qed.

(** X13: with [only_running=False] nothing is dropped: when the listing of
    all containers succeeds with string start timestamps,
    [GetContainersList] returns a permutation of that listing in ascending
    order of the start timestamps. *)
Theorem GetContainersList_all :
  exists l,
    result (GetContainersList json_loads py_lt_other self false) fs = Ret l
    /\ Permutation l all
    /\ length l = length all
    /\ StronglySorted started_before l.
Proof.
  exists (sorted_by_key py_lt_other (decorate all)).
  split; [exact (GetContainersList_result false) |].
  split; [exact sorted_keyed_perm |].
  split; [exact (Permutation_length sorted_keyed_perm) |].
  pose proof (fold_insert_sorted py_lt_other ContainerInfo (decorate all) keyed_str_keys)
    as Hsorted.
  pose proof sorted_keyed_decorated as Hdecorated.
  unfold sorted_by_key.
  induction Hsorted as [| x rest Hrest IH Hx]; simpl.
  - constructor.
  - inversion Hdecorated as [| ? ? Hkx Hdrest]; subst.
    constructor; [now apply IH |].
    rewrite Forall_forall in *. intros c Hc.
    apply in_map_iff in Hc. destruct Hc as (y & <- & Hy).
    destruct (Hx y Hy) as (a & b & Ha & Hb & Hab).
    unfold started_before.
    rewrite Hkx in Ha. rewrite (Hdrest y Hy) in Hb.
    injection Ha as <-. injection Hb as <-. exact Hab.
Qed.

End SortedListing.

Lemma same_start_listing_timestamps (c : ContainerInfo) :
  In c same_start_listing -> exists s, start_timestamp c = Some (JStr s).
Proof. intros [<- | [<- | [<- | []]]]; eexists; reflexivity. Qed.

Lemma GetContainersList_all_witness :
  exists l,
    result (GetContainersList MiniJson.decode demo_lt_other (aufs_storage 1) false)
      same_start_containers = Ret l
    /\ Permutation l same_start_listing
    /\ length l = length same_start_listing
    /\ StronglySorted started_before l.
Proof.
  apply (GetContainersList_all MiniJson.decode demo_lt_other same_start_containers
           (aufs_storage 1) same_start_listing).
  - reflexivity.
  - exact same_start_listing_timestamps.
Defined.

(** The sorted listing of [same_start_containers]: c3, then c1 and c2 in
    the order of the directory. *)
Example GetContainersList_same_start :
  result (GetContainersList MiniJson.decode demo_lt_other (aufs_storage 1) false)
    same_start_containers
  = Ret [state_record "c3" true "2017-02-01T10:00:00Z";
         state_record "c1" true "2017-03-01T10:00:00Z";
         state_record "c2" true "2017-03-01T10:00:00Z"].
Proof. reflexivity. Qed.

(** ** Further properties: the commands for volumes *)

Lemma finishes_ret {A} (a : A) : finishes (ret a).
Proof. intros fs. discriminate. Qed.

Lemma finishes_raise {A} (e : exn) : finishes (@raise A e).
Proof. intros fs. discriminate. Qed.

Lemma finishes_bind {A B} (m : M A) (f : A -> M B) :
  finishes m -> (forall a, finishes (f a)) -> finishes (bind m f).
Proof.
  intros Hm Hf fs. rewrite result_bind.
  pose proof (Hm fs) as Hmfs.
  destruct (result m fs); [apply Hf | discriminate | contradiction].
Qed.

Lemma finishes_py_getitem (d : json) (key : string) : finishes (py_getitem d key).
Proof.
  destruct d as [| | | | | m]; try (intros fs; discriminate).
  unfold py_getitem. destruct (assoc key m); intros fs; discriminate.
Qed.

Lemma finishes_as_str (method : string) (v : json) : finishes (as_str method v).
Proof. destruct v; intros fs; discriminate. Qed.

Lemma finishes_mount_point_command (self : Storage) (mount_dir : string)
  (storage_info : json) :
  finishes (mount_point_command self mount_dir storage_info).
Proof.
  unfold mount_point_command.
  repeat first
    [ apply finishes_ret
    | apply finishes_py_getitem
    | apply finishes_as_str
    | apply finishes_bind; [| intros ?]
    | match goal with
      | |- finishes (if ?b then _ else _) => destruct b
      end ].
Qed.

(** A comprehension fails as soon as one element fails. *)
Lemma result_mapM_raises {A B} (f : A -> M B) (xs : list A) (fs : filesystem) :
  (forall x, finishes (f x)) ->
  (exists x e, In x xs /\ result (f x) fs = Raise e) ->
  exists e, result (mapM f xs) fs = Raise e.
Proof.
  intros Hfin. induction xs as [| x rest IH]; intros (x0 & e0 & Hin & Hraise).
  - destruct Hin.
  - simpl. rewrite result_bind.
    pose proof (Hfin x fs) as Hx.
    destruct (result (f x) fs) as [y | e |] eqn:Hfx.
    + destruct Hin as [<- | Hin]; [congruence |].
      destruct IH as [e He]; [now exists x0, e0 |].
      exists e. rewrite result_bind, He. reflexivity.
    + now exists e.
    + contradiction.
Qed.

Section Volumes.

Variable json_loads : string -> option json.
Variable fs : filesystem.
Variable self : Storage.
Variable mount_dir : string.

(** X16: for a generation-1 storage and a container whose [Volumes] is a
    mapping with string values, every entry gives one command, in the order
    of the mapping, and that command is the text
    [mount --bind -o ro <source> <destination>]: a read-only bind mount
    whose destination is the key of the entry (the path in the container)
    without its leading slashes under [mount_dir], and whose source is the
    value of the entry (the path on the host) without its leading slashes
    under the root directory. *)
Theorem MakeExtraVolumeCommands_volumes (container_info : ContainerInfo)
  (vols : list (string * json)) :
  docker_version self = 1%Z ->
  volumes container_info = JObj vols ->
  (forall kv, In kv vols -> exists host, snd kv = JStr host) ->
  exists cmds,
    result (MakeExtraVolumeCommands self container_info mount_dir) fs = Ret cmds
    /\ Forall2
         (fun kv cmd =>
            exists host,
              snd kv = JStr host
              /\ cmd = "mount --bind -o ro "
                       ++ under (root_directory self) (Str.lstrip_char Str.slash host)
                       ++ " "
                       ++ under mount_dir (Str.lstrip_char Str.slash (fst kv)))
         vols cmds.
Proof.
  intros Hv Hvols Hstr.
  exists (map (fun kv =>
                 "mount --bind -o ro "
                 ++ under (root_directory self)
                      (Str.lstrip_char Str.slash
                         (match snd kv with JStr host => host | _ => EmptyString end))
                 ++ " " ++ under mount_dir (Str.lstrip_char Str.slash (fst kv)))
            vols).
  split.
  - unfold MakeExtraVolumeCommands. rewrite Hv, Hvols. cbn [Z.eqb Pos.eqb].
    destruct vols as [| kv0 rest0]; [reflexivity |].
    cbn [truthy py_items]. step_result.
    apply result_mapM. intros kv Hkv.
    destruct (Hstr kv Hkv) as [host Hhost]. rewrite Hhost.
    unfold volume_command. cbn [as_str]. step_result.
    rewrite !join_single.
    rewrite !join2_under by apply lstrip_char_relative.
    reflexivity.
  - apply Forall2_map_right. intros kv Hkv.
    destruct (Hstr kv Hkv) as [host Hhost]. exists host. now rewrite Hhost.
Qed.

(** X17: a mount point without [Source] or without [Destination] makes
    the whole call fail: [_MakeExtraVolumeCommands] raises and returns no
    partial list of commands, wherever the mount point stands among the
    others; when it is the first one, the error is the [KeyError] of the
    missing key. *)
Theorem MakeExtraVolumeCommands_missing_key (container_info : ContainerInfo)
  (mps : list (string * json)) (key : string) (members : list (string * json)) :
  docker_version self = 2%Z ->
  mount_points container_info = JObj mps ->
  In (key, JObj members) mps ->
  assoc "Source" members = None \/ assoc "Destination" members = None ->
  (exists e,
     result (MakeExtraVolumeCommands self container_info mount_dir) fs = Raise e)
  /\ (forall rest,
        mps = (key, JObj members) :: rest ->
        result (MakeExtraVolumeCommands self container_info mount_dir) fs
        = Raise (KeyError (match assoc "Source" members with
                           | None => "Source"
                           | Some _ => "Destination"
                           end))).
Proof.
  intros Hv Hmps Hin Hmissing.
  assert (Hentry :
    result (mount_point_command self mount_dir (JObj members)) fs
    = Raise (KeyError (match assoc "Source" members with
                       | None => "Source"
                       | Some _ => "Destination"
                       end))).
  { unfold mount_point_command, py_getitem.
    destruct (assoc "Source" members) as [src |]; step_result; [| reflexivity].
    destruct Hmissing as [Hs | Hd]; [discriminate |].
    now rewrite Hd. }
  assert (Hrun :
    result (MakeExtraVolumeCommands self container_info mount_dir) fs
    = result (mapM (fun kv => mount_point_command self mount_dir (snd kv)) mps) fs).
  { unfold MakeExtraVolumeCommands. rewrite Hv, Hmps. cbn [Z.eqb Pos.eqb].
    destruct mps as [| kv0 rest0]; [destruct Hin |].
    cbn [truthy py_items]. now step_result. }
  rewrite Hrun. split.
  - apply result_mapM_raises.
    + intros kv. apply finishes_mount_point_command.
    + exists (key, JObj members). eexists. split; [exact Hin | exact Hentry].
  - intros rest ->. cbn [mapM]. rewrite result_bind. cbn [snd].
    now rewrite Hentry.
Qed.

End Volumes.

Lemma MakeExtraVolumeCommands_volumes_witness :
  exists cmds,
    result (MakeExtraVolumeCommands (aufs_storage 1) graph_container "/mnt")
      graph_layers = Ret cmds
    /\ Forall2
         (fun kv cmd =>
            exists host,
              snd kv = JStr host
              /\ cmd = "mount --bind -o ro "
                       ++ under (root_directory (aufs_storage 1))
                            (Str.lstrip_char Str.slash host)
                       ++ " " ++ under "/mnt" (Str.lstrip_char Str.slash (fst kv)))
         [("/data", JStr "/srv/data")] cmds.
Proof.
  apply (MakeExtraVolumeCommands_volumes graph_layers (aufs_storage 1) "/mnt"
           graph_container [("/data", JStr "/srv/data")]).
  - reflexivity.
  - reflexivity.
  - intros kv [<- | []]. now exists "/srv/data".
Defined.

(** The command of the volume of [graph_container], as emitted. *)
Example MakeExtraVolumeCommands_graph_container :
  result (MakeExtraVolumeCommands (aufs_storage 1) graph_container "/mnt") graph_layers
  = Ret ["mount --bind -o ro /var/lib/srv/data /mnt/data"].
Proof. reflexivity. Qed.

Lemma MakeExtraVolumeCommands_missing_key_witness :
  (exists e,
     result (MakeExtraVolumeCommands (aufs_storage 2)
               (mount_points_record
                  [("m1", bind_mount_m1); ("m3", mount_point_without_destination)])
               "/mnt") empty_docker = Raise e)
  /\ (forall rest,
        [("m1", bind_mount_m1); ("m3", mount_point_without_destination)]
        = ("m3", JObj [("Source", JStr "/data/y")]) :: rest ->
        result (MakeExtraVolumeCommands (aufs_storage 2)
                  (mount_points_record
                     [("m1", bind_mount_m1); ("m3", mount_point_without_destination)])
                  "/mnt") empty_docker
        = Raise (KeyError (match assoc "Source" [("Source", JStr "/data/y")] with
                           | None => "Source"
                           | Some _ => "Destination"
                           end))).
Proof.
  apply (MakeExtraVolumeCommands_missing_key empty_docker (aufs_storage 2) "/mnt"
           (mount_points_record
              [("m1", bind_mount_m1); ("m3", mount_point_without_destination)])
           [("m1", bind_mount_m1); ("m3", mount_point_without_destination)]
           "m3" [("Source", JStr "/data/y")]).
  - reflexivity.
  - reflexivity.
  - right. left. reflexivity.
  - right. reflexivity.
Defined.

Section NothingDeclared.

Variable json_loads : string -> option json.
Variable fs : filesystem.
Variable self : Storage.

(** The members a returned record took its volumes and mount points
    from. *)
Lemma ContainerInfo_init_declared (id path : string) (c : ContainerInfo) :
  result (ContainerInfo_init json_loads id path) fs = Ret c ->
  exists text m,
    fs_read fs path = Some text
    /\ json_loads text = Some (JObj m)
    /\ mount_points c = dict_get m "MountPoints" JNull
    /\ volumes c = dict_get m "Volumes" JNull.
Proof.
  intros H. unfold ContainerInfo_init in H. step_in H.
  destruct (fs_read fs path) as [text |] eqn:Hread; [| discriminate H].
  step_in H. unfold json_load in H.
  destruct (json_loads text) as [doc |] eqn:Hload; step_in H; [| discriminate H].
  destruct doc as [| b | n | s | l | m]; cbn [py_get] in H; step_in H;
    try discriminate H.
  exists text, m.
  split; [first [reflexivity | assumption] |].
  split; [first [reflexivity | assumption] |].
  match type of H with
  | match ?r with _ => _ end = _ => destruct r as [config | |]; try discriminate H
  end.
  step_in H.
  match type of H with
  | match ?r with _ => _ end = _ => destruct r as [state | |]; try discriminate H
  end.
  step_in H. injection H as <-. split; reflexivity.
Qed.

(** X18: a container whose config document declares nothing for the
    generation of the storage (no [Volumes] member for generation 1, no
    [MountPoints] member for generation 2) gets the empty list of commands;
    in particular a generation-1 storage ignores the [MountPoints] of the
    document and a generation-2 storage its [Volumes]. *)
Theorem MakeExtraVolumeCommands_nothing_declared (id text mount_dir : string)
  (m : list (string * json)) (c : ContainerInfo) :
  result (GetContainerInfo json_loads self id) fs = Ret c ->
  fs_read fs (config_path self id) = Some text ->
  json_loads text = Some (JObj m) ->
  (docker_version self = 1%Z -> assoc "Volumes" m = None) ->
  (docker_version self = 2%Z -> assoc "MountPoints" m = None) ->
  result (MakeExtraVolumeCommands self c mount_dir) fs = Ret [].
Proof.
  intros Hc Hread Hload Hv1 Hv2.
  destruct (GetContainerInfo_inv json_loads fs self id c Hc)
    as (c0 & Hinit & _ & Hshape).
  destruct (ContainerInfo_init_declared _ _ _ Hinit)
    as (text' & m' & Hread' & Hload' & Hmps & Hvols).
  assert (text' = text) by congruence. subst text'.
  assert (m' = m) by congruence. subst m'.
  assert (Hsame : mount_points c = mount_points c0 /\ volumes c = volumes c0).
  { destruct Hshape as [(_ & mid & _ & ->) | (_ & ->)]; split; reflexivity. }
  destruct Hsame as [Hcm Hcv].
  unfold MakeExtraVolumeCommands.
  destruct (Z.eqb_spec (docker_version self) 1) as [H1 | H1].
  - rewrite Hcv, Hvols. unfold dict_get. now rewrite (Hv1 H1).
  - destruct (Z.eqb_spec (docker_version self) 2) as [H2 | H2]; [| reflexivity].
    rewrite Hcm, Hmps. unfold dict_get. now rewrite (Hv2 H2).
Qed.

End NothingDeclared.

Lemma MakeExtraVolumeCommands_nothing_declared_witness :
  result (MakeExtraVolumeCommands (aufs_storage 2)
            (set_mount_id running_record (JStr "f00d")) "/mnt") with_mount_id
  = Ret [].
Proof.
  apply (MakeExtraVolumeCommands_nothing_declared MiniJson.decode with_mount_id
           (aufs_storage 2) "c1" (MiniJson.encode running_config) "/mnt"
           [("Image", JStr "sha256:aaa");
            ("Name", JStr "/web");
            ("State", JObj [("Running", JBool true);
                            ("StartedAt", JStr "2017-02-13T16:45:05.785658046Z")])]).
  - reflexivity.
  - reflexivity.
  - reflexivity.
  - discriminate.
  - reflexivity.
Defined.

(** ** Further properties: one entry that fails *)

Lemma finishes_py_get (d : json) (key : string) (default : json) :
  finishes (py_get d key default).
Proof. destruct d; intros fs; discriminate. Qed.

Lemma finishes_json_load (json_loads : string -> option json) (text : string) :
  finishes (json_load json_loads text).
Proof. unfold json_load. destruct (json_loads text); intros fs; discriminate. Qed.

Lemma finishes_open_read (path : string) : finishes (open_read path).
Proof. intros fs. rewrite result_open_read. destruct (fs_read fs path); discriminate. Qed.

Lemma finishes_isfile (path : string) : finishes (os_path_isfile path).
Proof. intros fs. discriminate. Qed.

(** Closing a goal [finishes m] for a computation without loop. *)
Ltac finishes_tac :=
  repeat first
    [ apply finishes_ret
    | apply finishes_raise
    | apply finishes_py_get
    | apply finishes_json_load
    | apply finishes_open_read
    | apply finishes_isfile
    | apply finishes_bind; [| intros ?]
    | match goal with
      | |- finishes (if ?b then _ else _) => destruct b
      | |- finishes (match ?o with Some _ => _ | None => _ end) => destruct o
      end ].

Lemma finishes_GetContainerInfo (json_loads : string -> option json)
  (self : Storage) (id : string) :
  finishes (GetContainerInfo json_loads self id).
Proof. unfold GetContainerInfo, ContainerInfo_init. finishes_tac. Qed.

Section OneFailure.

Variable json_loads : string -> option json.
Variable py_lt_other : json -> json -> bool.
Variable fs : filesystem.
Variable self : Storage.

(** X19: the listing is all or nothing: when the lookup of one entry of
    the containers directory raises, [GetAllContainersInfo] raises too and
    returns no record of the other entries, and so does
    [GetContainersList], for both values of [only_running]. *)
Theorem GetAllContainersInfo_one_failure (names : list string) (id : string)
  (e : exn) :
  fs_listdir fs (containers_directory self) = Some names ->
  In id names ->
  result (GetContainerInfo json_loads self id) fs = Raise e ->
  (exists e', result (GetAllContainersInfo json_loads self) fs = Raise e')
  /\ (forall only_running,
        exists e',
          result (GetContainersList json_loads py_lt_other self only_running) fs
          = Raise e').
Proof.
  intros Hdir Hin Hraise.
  assert (Hall : exists e', result (GetAllContainersInfo json_loads self) fs = Raise e').
  { unfold GetAllContainersInfo.
    rewrite result_bind, result_os_listdir, Hdir. cbv beta iota.
    rewrite result_bind.
    destruct names as [| n rest]; [destruct Hin |].
    rewrite result_ret. cbv beta iota.
    apply result_mapM_raises.
    - intros x. apply finishes_GetContainerInfo.
    - now exists id, e. }
  split; [exact Hall |].
  intros only_running. destruct Hall as [e' He'].
  exists e'. unfold GetContainersList. now rewrite result_bind, He'.
Qed.

End OneFailure.

Lemma GetAllContainersInfo_one_failure_witness :
  (exists e',
     result (GetAllContainersInfo MiniJson.decode (aufs_storage 1)) stray_entry
     = Raise e')
  /\ (forall only_running,
        exists e',
          result (GetContainersList MiniJson.decode demo_lt_other (aufs_storage 1)
                    only_running) stray_entry
          = Raise e').
Proof.
  apply (GetAllContainersInfo_one_failure MiniJson.decode demo_lt_other stray_entry
           (aufs_storage 1) ["c1"; "README"] "README"
           (UnboundLocalError "container_info")).
  - reflexivity.
  - right. left. reflexivity.
  - reflexivity.
Defined.

(** ** Further properties: the files the chain walk opens *)

Lemma opens_guarded_after_isfile (path : string) (evs : list event) :
  opens_guarded evs = true -> opens_guarded (EvIsFile path :: evs) = true.
Proof. destruct evs as [| [q | q | q | q | line] rest]; simpl; congruence. Qed.

Lemma opens_guarded_tested_open (path : string) (evs : list event) :
  opens_guarded evs = true ->
  opens_guarded (EvIsFile path :: EvOpen path :: evs) = true.
Proof. intros H. cbn [opens_guarded]. now rewrite String.eqb_refl, H. Qed.

Lemma events_isfile (path : string) (fs : filesystem) :
  events (os_path_isfile path) fs = [EvIsFile path].
Proof. reflexivity. Qed.

Lemma events_isdir (path : string) (fs : filesystem) :
  events (os_path_isdir path) fs = [EvIsDir path].
Proof. reflexivity. Qed.

Section GuardedOpens.

Variable json_loads : string -> option json.
Variable fs : filesystem.
Variable self : Storage.

Hypothesis generation_2 : docker_version self = 2%Z.

(** The events of one run of the loop body in generation 2. *)
Lemma layer_step_v2_events (layer : json) :
  events (layer_step json_loads self layer) fs = []
  \/ exists path,
       events (layer_step json_loads self layer) fs = [EvIsFile path]
       \/ events (layer_step json_loads self layer) fs = [EvIsFile path; EvOpen path].
Proof.
  unfold layer_step. rewrite generation_2. cbn [Z.eqb Pos.eqb].
  destruct layer as [| b | n | s | l | m]; cbn [as_str]; try (left; reflexivity).
  rewrite events_bind. cbn [events ret snd app]. rewrite result_ret.
  rewrite events_bind. unfold split_pair.
  destruct (Str.split Str.colon s) as [| h [| l [| x r]]];
    try (left; reflexivity).
  cbn [events ret snd app]. rewrite result_ret. cbn [fst snd].
  rewrite events_bind, events_isfile, result_isfile. right. eexists.
  destruct (fs_isfile fs _).
  - right. rewrite events_bind, events_open_read.
    destruct (result (open_read _) fs); reflexivity.
  - left. reflexivity.
Qed.

Lemma events_walk_layers_unfold (fuel : nat) (layer : json) (acc : list json) :
  layer <> JNull ->
  events (walk_layers json_loads (S fuel) self layer acc) fs
  = (events (layer_step json_loads self layer) fs
     ++ match result (layer_step json_loads self layer) fs with
        | Ret (Continue next) =>
            events (walk_layers json_loads fuel self next (acc ++ [layer])%list) fs
        | _ => []
        end)%list.
Proof.
  intros Hnn.
  destruct layer; try contradiction; simpl; rewrite events_bind;
    destruct (result (layer_step json_loads self _) fs) as [[next |] | e |];
    reflexivity.
Qed.

Lemma walk_layers_v2_guarded (fuel : nat) :
  forall (layer : json) (acc : list json),
    opens_guarded (events (walk_layers json_loads fuel self layer acc) fs) = true.
Proof.
  induction fuel as [| fuel IH]; intros layer acc.
  - destruct layer; reflexivity.
  - assert (Hnull : layer = JNull \/ layer <> JNull)
      by (destruct layer; (now left) || (right; discriminate)).
    destruct Hnull as [-> | Hnn]; [reflexivity |].
    rewrite (events_walk_layers_unfold _ _ _ Hnn).
    assert (Hrest :
      opens_guarded
        match result (layer_step json_loads self layer) fs with
        | Ret (Continue next) =>
            events (walk_layers json_loads fuel self next (acc ++ [layer])%list) fs
        | _ => []
        end = true).
    { destruct (result (layer_step json_loads self layer) fs) as [[next |] | e |];
        try reflexivity. apply IH. }
    destruct (layer_step_v2_events layer) as [-> | [path [-> | ->]]].
    + exact Hrest.
    + now apply opens_guarded_after_isfile.
    + now apply opens_guarded_tested_open.
Qed.

(** X11: in generation 2 chain resolution opens no file it has not just
    tested: in the sequence of file-system accesses of [GetOrderedLayers]
    every [open] comes right after the [os.path.isfile] call on the same
    path (the config file of the container, then each parent-pointer
    file). *)
Theorem GetOrderedLayers_v2_opens_guarded (fuel : nat) (id : string) :
  opens_guarded (events (GetOrderedLayers json_loads fuel self id) fs) = true.
Proof.
  unfold GetOrderedLayers.
  rewrite events_bind, events_isdir, result_isdir. cbn [app].
  destruct (fs_isdir fs _); cbn [negb opens_guarded].
  - rewrite events_bind. cbn [events ret snd app]. rewrite result_ret.
    apply walk_layers_v2_guarded.
  - rewrite events_bind, events_bind, events_isfile, result_isfile.
    rewrite result_bind, result_isfile.
    destruct (fs_isfile fs _); cbn [negb app].
    + rewrite events_bind, events_open_read. cbn [app].
      apply opens_guarded_tested_open.
      rewrite result_bind, result_open_read.
      destruct (fs_read fs _) as [text |]; [| reflexivity].
      rewrite events_bind, result_bind.
      rewrite (no_events_json_load json_loads text fs). cbn [app].
      unfold json_load.
      destruct (json_loads text) as [doc |]; [| reflexivity].
      rewrite result_ret, events_bind, result_bind.
      rewrite (no_events_py_get doc "Image" JNull fs). cbn [app].
      destruct doc as [| b | n | s | l | m]; try reflexivity.
      cbn [py_get]. rewrite result_ret. cbn [events ret snd app].
      rewrite result_ret. apply walk_layers_v2_guarded.
    + reflexivity.
Qed.

End GuardedOpens.

Lemma GetOrderedLayers_v2_opens_guarded_witness :
  opens_guarded
    (events (GetOrderedLayers MiniJson.decode 2 (aufs_storage 2) "c1") two_layers)
  = true.
Proof.
  apply (GetOrderedLayers_v2_opens_guarded MiniJson.decode two_layers (aufs_storage 2)).
  reflexivity.
Defined.

(** The accesses of that call, and those of a generation-1 walk, which
    opens the json file of a layer without testing it. *)
Example GetOrderedLayers_accesses :
  events (GetOrderedLayers MiniJson.decode 2 (aufs_storage 2) "c1") two_layers
  = [EvIsDir "/var/lib/docker/graph/c1";
     EvIsFile "/var/lib/docker/containers/c1/config.v2.json";
     EvOpen "/var/lib/docker/containers/c1/config.v2.json";
     EvIsFile "/var/lib/docker/image/aufs/imagedb/metadata/sha256/aaa/parent";
     EvOpen "/var/lib/docker/image/aufs/imagedb/metadata/sha256/aaa/parent";
     EvIsFile "/var/lib/docker/image/aufs/imagedb/metadata/sha256/bbb/parent"]
  /\ opens_guarded
       (events (GetOrderedLayers MiniJson.decode 3 (aufs_storage 1) "c1") graph_layers)
     = false.
Proof. split; reflexivity. Qed.
